(** * GetCanvasFile: a shallow embedding of [scraper.py]

    The script walks a paginated REST API, merges two file listings into
    one registry keyed by file id, filters the registry by file extension
    and downloads what is left under sanitized names.

    Conventions of the embedding.
    - A Python [str] is a [string]; a character is an [ascii].  The
      operations of the script that look at single characters only ever
      test for ASCII characters, and no byte of a multi-byte UTF-8
      sequence is an ASCII byte, so the byte view and the code-point view
      agree for them.
    - Values decoded from JSON are the inductive [value]; floating point
      numbers are left out.
    - The network and the file system are oracles that thread a state of
      an arbitrary type [World].
    - A [while] loop gets a fuel argument; running out of fuel is the
      outcome [Timeout], distinct from every result of the script.
    - A response is taken as it is once it is there: its body decodes to
      a value or fails to decode, and a streamed body is a finite run of
      chunks.  A request that never comes back, and a decoder that gives
      up on a body for another reason than its syntax, are not part of
      the embedding.
    - What the script prints is left out, except in the downloader:
      [Downloader.download_file] keeps the lines it prints as a list,
      and [Console.download_file] has [print] as an operation that may
      raise. *)

From Stdlib Require Import List String Ascii Bool ZArith Lia DecimalString.
Import ListNotations.

Local Open Scope string_scope.
Local Open Scope list_scope.
Set Warnings "-register-all".

(** ** Characters and strings *)

Module Str.

(** [c in s] for a one-character [c]. *)
Fixpoint mem (c : ascii) (s : string) : bool :=
  match s with
  | EmptyString => false
  | String a s' => Ascii.eqb c a || mem c s'
  end.

(** Membership as a proposition, used in statements only. *)
Fixpoint In (c : ascii) (s : string) : Prop :=
  match s with
  | EmptyString => False
  | String a s' => a = c \/ In c s'
  end.

(** [re.sub('[' + cls + ']', repl, s)]: every character of the class is
    replaced by [repl], all other characters are kept. *)
Fixpoint re_sub_class (cls : string) (repl : string) (s : string) : string :=
  match s with
  | EmptyString => EmptyString
  | String a s' =>
      if mem a cls then repl ++ re_sub_class cls repl s'
      else String a (re_sub_class cls repl s')
  end.

(** [s.replace(old, new)] for a one-character [old]. *)
Fixpoint replace (old : ascii) (new : string) (s : string) : string :=
  match s with
  | EmptyString => EmptyString
  | String a s' =>
      if Ascii.eqb a old then new ++ replace old new s'
      else String a (replace old new s')
  end.

End Str.

(** ** Filename sanitizer (scraper.py, lines 14-18) *)

Module Sanitizer.

(** The nine characters of the character class of the pattern, in the
    order of the pattern: backslash (written escaped there), slash, star,
    question mark, colon, double quote, less-than, greater-than, bar. *)
Definition forbidden : string :=
  String (ascii_of_nat 92)
    (String "/" (String "*" (String "?" (String ":"
      (String (ascii_of_nat 34) (String "<" (String ">" (String "|"
        EmptyString)))))))).

Definition space : ascii := " "%char.
Definition underscore : ascii := "_"%char.

Definition sanitize_filename (filename : string) : string :=
  let sanitized := Str.re_sub_class forbidden EmptyString filename in
  let sanitized := Str.replace space (String underscore EmptyString) sanitized in
  sanitized.

(** A name is safe when it has no forbidden character and no space. *)
Fixpoint safe (s : string) : bool :=
  match s with
  | EmptyString => true
  | String a s' =>
      negb (Str.mem a forbidden) && negb (Ascii.eqb a space) && safe s'
  end.

End Sanitizer.

(** ** Python values and exceptions *)

Module Py.

(** What [response.json()] can return, and what the script passes around:
    [None], booleans, integers, strings, lists and dicts with string
    keys.  A dict is kept as its list of items. *)
Inductive value : Type :=
| VNone
| VBool (b : bool)
| VInt (n : Z)
| VStr (s : string)
| VList (l : list value)
| VDict (d : list (string * value)).

(** The exceptions of the script.  [RequestException] stands for
    [requests.exceptions.RequestException] and its subclasses, [OSError]
    for an [OSError] that is not one of those, [OtherError] for any other
    subclass of [Exception]. *)
Inductive exn : Type :=
| KeyError (k : string)
| AttributeError (attr : string)
| TypeError
| RequestException
| OSError
| OtherError.

(** The result of running a piece of the script. *)
Inductive outcome (A : Type) : Type :=
| Ret (a : A)
| Raise (e : exn)
| Timeout.

Arguments Ret {A} a.
Arguments Raise {A} e.
Arguments Timeout {A}.

Definition obind {A B} (c : outcome A) (k : A -> outcome B) : outcome B :=
  match c with
  | Ret a => k a
  | Raise e => Raise e
  | Timeout => Timeout
  end.

(** [bool(v)]. *)
Definition truthy (v : value) : bool :=
  match v with
  | VNone => false
  | VBool b => b
  | VInt n => negb (n =? 0)%Z
  | VStr s => negb (String.eqb s EmptyString)
  | VList l => match l with [] => false | _ :: _ => true end
  | VDict d => match d with [] => false | _ :: _ => true end
  end.

Definition isinstance_dict (v : value) : bool :=
  match v with VDict _ => true | _ => false end.

Definition isinstance_list (v : value) : bool :=
  match v with VList _ => true | _ => false end.

(** Lookup in the items of a dict. *)
Fixpoint lookup {A} (k : string) (d : list (string * A)) : option A :=
  match d with
  | [] => None
  | (k', v) :: d' => if String.eqb k k' then Some v else lookup k d'
  end.

(** [v.get(k, default)]: only a dict has the method. *)
Definition get (v : value) (k : string) (default : value) : outcome value :=
  match v with
  | VDict d => Ret (match lookup k d with Some x => x | None => default end)
  | _ => Raise (AttributeError "get")
  end.

(** [v[k]] for a string [k]. *)
Definition subscript (v : value) (k : string) : outcome value :=
  match v with
  | VDict d => match lookup k d with Some x => Ret x | None => Raise (KeyError k) end
  | _ => Raise TypeError
  end.

(** [v == s] for a string literal [s]. *)
Definition eq_str (v : value) (s : string) : bool :=
  match v with VStr s' => String.eqb s' s | _ => false end.

(** What [for x in v] visits: the elements of a list, the keys of a dict,
    the characters of a string; anything else is not iterable. *)
Definition iterate (v : value) : outcome (list value) :=
  match v with
  | VList l => Ret l
  | VDict d => Ret (map (fun kv => VStr (fst kv)) d)
  | VStr s => Ret (map (fun c => VStr (String c EmptyString)) (list_ascii_of_string s))
  | _ => Raise TypeError
  end.

(** Computations of the script that also move the world. *)
Definition M (World A : Type) : Type := World -> outcome (A * World).

Definition ret {World A} (a : A) : M World A := fun w => Ret (a, w).

Definition bind {World A B} (c : M World A) (k : A -> M World B) : M World B :=
  fun w =>
    match c w with
    | Ret (a, w') => k a w'
    | Raise e => Raise e
    | Timeout => Timeout
    end.

(** A step that does not touch the world. *)
Definition lift {World A} (c : outcome A) : M World A :=
  fun w => obind c (fun a => Ret (a, w)).

End Py.

Import Py.

Declare Scope py_scope.
Delimit Scope py_scope with py.
Notation "x <~ c ;; k" := (obind c (fun x => k))
  (at level 61, c at next level, right associativity) : py_scope.
Notation "x <- c ;; k" := (bind c (fun x => k))
  (at level 61, c at next level, right associativity) : py_scope.

(** ** Paginated fetcher (scraper.py, lines 20-63) *)

Module Fetcher.

(** One entry of [requests.utils.parse_header_links]: a dict of strings
    with the key [url] and the parameters of the link, [rel] among them. *)
Definition link := list (string * string).

(** What the script reads of a response.  [json_body] is [None] when
    [response.json()] raises [JSONDecodeError]; [links] is [None] when
    the response has no [Link] header and otherwise the header as
    [parse_header_links] returns it. *)
Record response : Type := {
  status_code : Z;
  json_body : option value;
  links : option (list link)
}.

(** [session.get] either raises a [RequestException] or returns. *)
Inductive reply : Type :=
| ConnectionFailed
| Response (r : response).

(** [response.raise_for_status()] raises for the codes 400 to 599. *)
Definition raises_for_status (r : response) : bool :=
  ((400 <=? status_code r) && (status_code r <? 600))%Z.

(** The [for link in links] loop with its [break]: the [url] of the first
    link whose [rel] is [next], and [None] when there is none. *)
Fixpoint next_link (ls : list link) : value :=
  match ls with
  | [] => VNone
  | l :: ls' =>
      match lookup "rel" l with
      | Some rel =>
          if String.eqb rel "next"
          then match lookup "url" l with Some u => VStr u | None => VNone end
          else next_link ls'
      | None => next_link ls'
      end
  end.

Definition next_url_of (r : response) : value :=
  match links r with
  | Some ls => next_link ls
  | None => VNone
  end.

Section WithSession.

Context {World : Type}.
(** [session.get(url, params=params)]. *)
Variable session_get : value -> option value -> World -> reply * World.

(** The [while next_url] loop.  The result [None] is the failure marker
    of line 61, [Some l] the list of line 63. *)
Fixpoint request_loop (fuel : nat) (next_url : value) (params : option value)
    (all_results : list value) (w : World)
  : outcome (option (list value) * World) :=
  if negb (truthy next_url) then Ret (Some all_results, w)
  else
    match fuel with
    | O => Timeout
    | S fuel' =>
        match session_get next_url params w with
        | (ConnectionFailed, w1) => Ret (None, w1)
        | (Response r, w1) =>
            if raises_for_status r then Ret (None, w1)
            else
              match json_body r with
              | None => request_loop fuel' VNone None all_results w1
              | Some (VList data) =>
                  request_loop fuel' (next_url_of r) None (all_results ++ data) w1
              | Some data =>
                  let all_results :=
                    if isinstance_dict data then all_results ++ [data]
                    else all_results in
                  request_loop fuel' VNone None all_results w1
              end
        end
    end.

Definition make_api_request (fuel : nat) (url : value) (params : option value)
    (w : World) : outcome (option (list value) * World) :=
  request_loop fuel url params [] w.

End WithSession.

End Fetcher.

Import Fetcher.

(** ** The registry [files_to_download] and its two discovery paths
    (scraper.py, lines 97-150) *)

Module Registry.

Local Open Scope py_scope.

(** The hashable values, up to the equality a dict compares keys with:
    [True] and [1] are the same key, and so are [False] and [0]. *)
Inductive key : Type :=
| KNone
| KInt (n : Z)
| KStr (s : string).

(** Hashing a value that is used as a key; lists and dicts are
    unhashable. *)
Definition hash_key (v : value) : outcome key :=
  match v with
  | VNone => Ret KNone
  | VBool b => Ret (KInt (if b then 1 else 0))
  | VInt n => Ret (KInt n)
  | VStr s => Ret (KStr s)
  | VList _ | VDict _ => Raise TypeError
  end.

Definition key_eqb (a b : key) : bool :=
  match a, b with
  | KNone, KNone => true
  | KInt n, KInt m => (n =? m)%Z
  | KStr s, KStr t => String.eqb s t
  | _, _ => false
  end.

(** The dict literal of lines 107-111 and 139-143. *)
Record FileRecord : Type := {
  filename : value;
  url : value;
  id : value
}.

(** A Python dict keeps its items in insertion order, one per key. *)
Definition registry := list (key * FileRecord).

(** [k in d]. *)
Fixpoint dict_mem (k : key) (d : registry) : bool :=
  match d with
  | [] => false
  | (k', _) :: d' => key_eqb k k' || dict_mem k d'
  end.

Fixpoint dict_get (k : key) (d : registry) : option FileRecord :=
  match d with
  | [] => None
  | (k', r) :: d' => if key_eqb k k' then Some r else dict_get k d'
  end.

(** [d[k] = r]: an item with the key takes the new value where it stands,
    a new key goes to the end. *)
Fixpoint dict_set (k : key) (r : FileRecord) (d : registry) : registry :=
  match d with
  | [] => [(k, r)]
  | (k', r') :: d' =>
      if key_eqb k k' then (k', r) :: d' else (k', r') :: dict_set k r d'
  end.

(** The dict literal: [display_name], [url] and [id] are read in this
    order. *)
Definition file_record (file_info : value) : outcome FileRecord :=
  display_name <~ subscript file_info "display_name" ;;
  u <~ subscript file_info "url" ;;
  i <~ subscript file_info "id" ;;
  Ret {| filename := display_name; url := u; id := i |}.

(** [files_to_download[file_info['id']] = { ... }]: the right-hand side
    is evaluated first, then the subscript of the target. *)
Definition store (file_info : value) (files_to_download : registry)
  : outcome registry :=
  r <~ file_record file_info ;;
  i <~ subscript file_info "id" ;;
  k <~ hash_key i ;;
  Ret (dict_set k r files_to_download).

(** Path A, the body of the loop of line 105. *)
Definition path_a_entry (files_to_download : registry) (file_info : value)
  : outcome registry :=
  u <~ get file_info "url" VNone ;;
  if truthy u then store file_info files_to_download
  else Ret files_to_download.

Fixpoint path_a_loop (course_files : list value) (files_to_download : registry)
  : outcome registry :=
  match course_files with
  | [] => Ret files_to_download
  | file_info :: rest =>
      files_to_download <~ path_a_entry files_to_download file_info ;;
      path_a_loop rest files_to_download
  end.

(** Path B, lines 137-148: what is done with one resolved file detail. *)
Definition path_b_entry (files_to_download : registry) (file_info : value)
  : outcome registry :=
  has_url <~ (if isinstance_dict file_info
              then u <~ get file_info "url" VNone ;; Ret (truthy u)
              else Ret false) ;;
  if has_url : bool then
    i <~ subscript file_info "id" ;;
    k <~ hash_key i ;;
    if negb (dict_mem k files_to_download) then
      store file_info files_to_download
    else
      _ <~ subscript file_info "display_name" ;;
      Ret files_to_download
  else Ret files_to_download.

Section WithSession.

Context {World : Type}.
Variable session_get : value -> option value -> World -> reply * World.

(** The configuration: the course id of the environment and the text an
    f-string puts for a value. *)
Variable COURSE_ID : value.
Variable format : value -> string.

Definition CANVAS_BASE_URL : string := "https://canvas.sfu.ca".

Definition files_url : value :=
  VStr (CANVAS_BASE_URL ++ "/api/v1/courses/" ++ format COURSE_ID ++ "/files").
Definition modules_url : value :=
  VStr (CANVAS_BASE_URL ++ "/api/v1/courses/" ++ format COURSE_ID ++ "/modules").
Definition items_url (module_id : value) : value :=
  VStr (CANVAS_BASE_URL ++ "/api/v1/courses/" ++ format COURSE_ID
        ++ "/modules/" ++ format module_id ++ "/items").

Definition per_page (n : Z) : value := VDict [("per_page", VInt n)].
Definition modules_params : value :=
  VDict [("include", VList [VStr "items"]); ("per_page", VInt 50)].

Definition fetch (fuel : nat) (u : value) (params : option value)
  : M World (option (list value)) :=
  make_api_request session_get fuel u params.

(** Lines 129-150: one item of a module. *)
Definition module_item (fuel : nat) (files_to_download : registry) (item : value)
  : M World registry :=
  ty <- lift (get item "type" VNone) ;;
  if eq_str ty "File" then
    file_detail_url <- lift (get item "url" VNone) ;;
    if truthy file_detail_url then
      file_details_list <- fetch fuel file_detail_url None ;;
      match file_details_list with
      | Some (file_info :: _) => lift (path_b_entry files_to_download file_info)
      | Some [] | None => ret files_to_download
      end
    else ret files_to_download
  else ret files_to_download.

Fixpoint module_items_loop (fuel : nat) (module_items : list value)
    (files_to_download : registry) : M World registry :=
  match module_items with
  | [] => ret files_to_download
  | item :: rest =>
      files_to_download <- module_item fuel files_to_download item ;;
      module_items_loop fuel rest files_to_download
  end.

(** Lines 122-128: one module.  [x or []] is [x] for a non-empty list and
    the empty list for [None] and for the empty list. *)
Definition module_entry (fuel : nat) (files_to_download : registry)
    (module : value) : M World registry :=
  _ <- lift (subscript module "name") ;;
  module_items <- lift (get module "items" (VList [])) ;;
  module_items <-
    (if negb (truthy module_items) then
       module_id <- lift (subscript module "id") ;;
       fetched <- fetch fuel (items_url module_id) (Some (per_page 100)) ;;
       ret (VList (match fetched with Some l => l | None => [] end))
     else ret module_items) ;;
  items <- lift (iterate module_items) ;;
  module_items_loop fuel items files_to_download.

Fixpoint modules_loop (fuel : nat) (modules : list value)
    (files_to_download : registry) : M World registry :=
  match modules with
  | [] => ret files_to_download
  | module :: rest =>
      files_to_download <- module_entry fuel files_to_download module ;;
      modules_loop fuel rest files_to_download
  end.

(** Lines 97-113. *)
Definition path_a (fuel : nat) : M World registry :=
  course_files <- fetch fuel files_url (Some (per_page 100)) ;;
  match course_files with
  | Some l => lift (path_a_loop l [])
  | None => ret []
  end.

(** Lines 115-150. *)
Definition path_b (fuel : nat) (files_to_download : registry) : M World registry :=
  modules <- fetch fuel modules_url (Some modules_params) ;;
  match modules with
  | Some l => modules_loop fuel l files_to_download
  | None => ret files_to_download
  end.

Definition build_registry (fuel : nat) : M World registry :=
  files_to_download <- path_a fuel ;;
  path_b fuel files_to_download.

End WithSession.

End Registry.

Import Registry.

(** ** Downloader (scraper.py, lines 66-85) *)

Module Downloader.

(** A response read with [stream=True]: its status, and what
    [iter_content] yields, a finite run of chunks after which the
    iterator stops or, when [broken] is set, raises. *)
Record stream : Type := {
  stream_status : Z;
  chunks : list string;
  broken : option exn
}.

Definition stream_raises_for_status (r : stream) : bool :=
  ((400 <=? stream_status r) && (stream_status r <? 600))%Z.

(** The lines the function prints. *)
Inductive message : Type :=
| Downloading (filename : string)
| Downloaded (full_path : string)
| ErrorDownloading (filename : string) (url : value) (e : exn)
| ErrorSaving (filename full_path : string) (e : exn)
| ErrorUnexpected (filename : string) (e : exn).

Section WithFileSystem.

Context {World Handle : Type}.
(** [os.path.join] and [os.path.dirname] of the platform. *)
Variable os_path_join : string -> string -> string.
Variable os_path_dirname : string -> string.
(** [session.get(url, stream=True, allow_redirects=True)]. *)
Variable stream_get : value -> World -> (exn + stream) * World.
(** [os.makedirs(path, exist_ok=True)], [open(path, 'wb')], [f.write] and
    the closing of [f]; [Some e] and [inl e] mean that [e] is raised. *)
Variable makedirs : string -> World -> option exn * World.
Variable open_wb : string -> World -> (exn + Handle) * World.
Variable write : Handle -> string -> World -> option exn * World.
Variable close : Handle -> World -> option exn * World.

(** Lines 75-76. *)
Fixpoint write_chunks (f : Handle) (cs : list string) (end_of_stream : option exn)
    (w : World) : option exn * World :=
  match cs with
  | [] => (end_of_stream, w)
  | chunk :: rest =>
      match write f chunk w with
      | (Some e, w1) => (Some e, w1)
      | (None, w1) => write_chunks f rest end_of_stream w1
      end
  end.

(** Lines 74-76: the file is closed on the way out of the [with] block,
    also when its body raised; an exception of the closing wins. *)
Definition save (full_path : string) (r : stream) (w : World)
  : option exn * World :=
  match open_wb full_path w with
  | (inl e, w1) => (Some e, w1)
  | (inr f, w1) =>
      let (raised, w2) := write_chunks f (chunks r) (broken r) w1 in
      match close f w2 with
      | (Some e, w3) => (Some e, w3)
      | (None, w3) => (raised, w3)
      end
  end.

(** Lines 71-76, the body of the [try]. *)
Definition transfer (u : value) (full_path : string) (w : World)
  : option exn * World :=
  match stream_get u w with
  | (inl e, w1) => (Some e, w1)
  | (inr r, w1) =>
      if stream_raises_for_status r then (Some RequestException, w1)
      else
        match makedirs (os_path_dirname full_path) w1 with
        | (Some e, w2) => (Some e, w2)
        | (None, w2) => save full_path r w2
        end
  end.

(** The three [except] clauses, in their order. *)
Definition report (filename : string) (u : value) (full_path : string) (e : exn)
  : message :=
  match e with
  | RequestException => ErrorDownloading filename u e
  | OSError => ErrorSaving filename full_path e
  | _ => ErrorUnexpected filename e
  end.

(** The result and the lines printed by the call, on a console that
    takes every line ([Console.download_file] is the function on a
    console that may refuse one). *)
Definition download_file (u : value) (filename download_path : string) (w : World)
  : (bool * list message) * World :=
  let full_path := os_path_join download_path filename in
  match transfer u full_path w with
  | (None, w') => ((true, [Downloading filename; Downloaded full_path]), w')
  | (Some e, w') =>
      ((false, [Downloading filename; report filename u full_path e]), w')
  end.

End WithFileSystem.

End Downloader.

Import Downloader.

(** ** The downloader and the console (scraper.py, lines 66-85)

    [Downloader.download_file] keeps what the function prints as a list
    of lines, which is the function with a console that takes every
    line.  Here [print] is an operation of its own that may raise (a
    character that the encoding of the console does not have, a closed
    pipe).  Line 69 prints before the [try]; line 77 prints inside it;
    the lines 80, 82 and 84 print inside the handlers, where nothing
    catches what they raise. *)

Module Console.

Section WithConsole.

Context {World Handle : Type}.
Variable os_path_join : string -> string -> string.
Variable os_path_dirname : string -> string.
Variable stream_get : value -> World -> (exn + stream) * World.
Variable makedirs : string -> World -> option exn * World.
Variable open_wb : string -> World -> (exn + Handle) * World.
Variable write : Handle -> string -> World -> option exn * World.
Variable close : Handle -> World -> option exn * World.
(** [print(line)]; [Some e] means that [e] is raised. *)
Variable print : message -> World -> option exn * World.

(** An [except] clause and line 85: the report is printed, then [False]
    is returned. *)
Definition handler (filename : string) (u : value) (full_path : string)
    (e : exn) (w : World) : outcome (bool * World) :=
  match print (report filename u full_path e) w with
  | (Some e', _) => Raise e'
  | (None, w') => Ret (false, w')
  end.

Definition download_file (u : value) (filename download_path : string) (w : World)
  : outcome (bool * World) :=
  let full_path := os_path_join download_path filename in
  match print (Downloading filename) w with
  | (Some e, _) => Raise e
  | (None, w0) =>
      match transfer os_path_dirname stream_get makedirs open_wb write close
              u full_path w0 with
      | (Some e, w1) => handler filename u full_path e w1
      | (None, w1) =>
          match print (Downloaded full_path) w1 with
          | (Some e, w2) => handler filename u full_path e w2
          | (None, w2) => Ret (true, w2)
          end
      end
  end.

End WithConsole.

End Console.

(** ** [os.path.splitext] and [str.lower] *)

Module OsPath.

Inductive platform : Type := Posix | Windows.

Definition sep (pf : platform) : ascii :=
  match pf with Posix => "/"%char | Windows => ascii_of_nat 92 end.

Definition altsep (pf : platform) : option ascii :=
  match pf with Posix => None | Windows => Some "/"%char end.

Definition extsep : ascii := "."%char.

(** [p.rfind(c)] for a one-character [c]: the last index of [c] in [p],
    and -1 when [c] is not in [p]. *)
Fixpoint rfind_from (c : ascii) (p : string) (i : Z) (found : Z) : Z :=
  match p with
  | EmptyString => found
  | String a p' => rfind_from c p' (i + 1) (if Ascii.eqb a c then i else found)
  end.

Definition rfind (c : ascii) (p : string) : Z := rfind_from c p 0 (-1).

(** [p[:n]] and [p[n:]] for [n >= 0]. *)
Fixpoint take (n : nat) (p : string) : string :=
  match n, p with
  | S n', String a p' => String a (take n' p')
  | _, _ => EmptyString
  end.

Fixpoint drop (n : nat) (p : string) : string :=
  match n, p with
  | S n', String _ p' => drop n' p'
  | _, _ => p
  end.

(** The [while filenameIndex < dotIndex] loop of [genericpath._splitext],
    with [n] the number of indices left: is there a character other than
    the dot at one of them? *)
Fixpoint name_before_dot (n : nat) (filenameIndex : nat) (p : string) : bool :=
  match n with
  | O => false
  | S n' =>
      if negb (String.eqb (take 1 (drop filenameIndex p)) (String extsep EmptyString))
      then true
      else name_before_dot n' (S filenameIndex) p
  end.

(** [os.path.splitext(p)], after [genericpath._splitext] of CPython: the
    extension starts at the last dot of the last path component, unless
    only dots stand before it in that component. *)
Definition splitext (pf : platform) (p : string) : string * string :=
  let sepIndex := rfind (sep pf) p in
  let sepIndex :=
    match altsep pf with
    | Some a => Z.max sepIndex (rfind a p)
    | None => sepIndex
    end in
  let dotIndex := rfind extsep p in
  if (dotIndex >? sepIndex)%Z
     && name_before_dot (Z.to_nat (dotIndex - (sepIndex + 1)))
                        (Z.to_nat (sepIndex + 1)) p
  then (take (Z.to_nat dotIndex) p, drop (Z.to_nat dotIndex) p)
  else (p, EmptyString).

(** [c.lower()] on the letters A to Z.  Outside ASCII [str.lower] changes
    more, but only the Kelvin sign becomes an ASCII letter (k), which no
    allowed extension has: the membership test of line 168 cannot tell
    the two apart. *)
Definition lower_char (c : ascii) : ascii :=
  let n := nat_of_ascii c in
  if (65 <=? n)%nat && (n <=? 90)%nat then ascii_of_nat (n + 32) else c.

Fixpoint lower (s : string) : string :=
  match s with
  | EmptyString => EmptyString
  | String a s' => String (lower_char a) (lower s')
  end.

End OsPath.

Import OsPath.

(** ** The download pass and the script (scraper.py, lines 88-182) *)

Module Orchestrator.

Local Open Scope py_scope.

Definition ALLOWED_EXTENSIONS : list string :=
  [".pptx"; ".pdf"; ".zip"; ".docx"; ".py"; ".ipynb"; ".java"; ".txt"; ".csv"].

(** [file_ext in ALLOWED_EXTENSIONS]. *)
Definition allowed (file_ext : string) : bool :=
  existsb (String.eqb file_ext) ALLOWED_EXTENSIONS.

(** Lines 167-168 for a display name that is a string. *)
Definition extension_allowed (pf : platform) (original_filename : string) : bool :=
  let file_ext := lower (snd (splitext pf original_filename)) in
  allowed file_ext.

(** The three counters of the summary. *)
Record counters : Type := {
  download_count : nat;
  skipped_count : nat;
  error_count : nat
}.

Definition downloaded (c : counters) : counters :=
  {| download_count := download_count c + 1;
     skipped_count := skipped_count c;
     error_count := error_count c |}.

Definition skipped (c : counters) : counters :=
  {| download_count := download_count c;
     skipped_count := skipped_count c + 1;
     error_count := error_count c |}.

Definition errored (c : counters) : counters :=
  {| download_count := download_count c;
     skipped_count := skipped_count c;
     error_count := error_count c + 1 |}.

Section WithSystem.

Context {World Handle : Type}.
Variable pf : platform.
Variable os_path_join : string -> string -> string.
Variable os_path_dirname : string -> string.
Variable session_get : value -> option value -> World -> reply * World.
Variable stream_get : value -> World -> (exn + stream) * World.
Variable makedirs : string -> World -> option exn * World.
Variable open_wb : string -> World -> (exn + Handle) * World.
Variable write : Handle -> string -> World -> option exn * World.
Variable close : Handle -> World -> option exn * World.
Variable COURSE_ID : value.
Variable format : value -> string.

Definition DOWNLOAD_DIR : string := "canvas_course_" ++ format COURSE_ID ++ "_files".

Definition download (u : value) (filename : string)
  : World -> (bool * list message) * World :=
  download_file os_path_join os_path_dirname stream_get makedirs open_wb write
    close u filename DOWNLOAD_DIR.

(** Lines 163-175.  [os.path.splitext] raises [TypeError] for a display
    name that is not a string.  The lines printed by the downloads are
    collected in [log]. *)
Fixpoint download_loop (items : registry) (c : counters) (log : list message)
  : M World (counters * list message) :=
  match items with
  | [] => ret (c, log)
  | (file_id, file_info) :: rest =>
      match filename file_info with
      | VStr original_filename =>
          let download_url := url file_info in
          let file_ext := lower (snd (splitext pf original_filename)) in
          if allowed file_ext then
            let sanitized := Sanitizer.sanitize_filename original_filename in
            fun w =>
              let '((ok, printed), w') := download download_url sanitized w in
              download_loop rest (if ok then downloaded c else errored c)
                (log ++ printed) w'
          else download_loop rest (skipped c) log
      | _ => lift (Raise TypeError)
      end
  end.

(** The script: line 91, the registry, the download pass. *)
Definition main (fuel : nat) : M World (counters * list message) :=
  _ <- (fun w => match makedirs DOWNLOAD_DIR w with
                 | (Some e, _) => Raise e
                 | (None, w') => Ret (tt, w')
                 end) ;;
  files_to_download <- build_registry session_get COURSE_ID format fuel ;;
  let zero := {| download_count := 0; skipped_count := 0; error_count := 0 |} in
  match files_to_download with
  | [] => ret (zero, [])
  | _ :: _ => download_loop files_to_download zero []
  end.

End WithSystem.

End Orchestrator.

Import Orchestrator.

(** ** Notions for the statements about the fetcher *)

Module Pages.

Section WithSession.

Context {World : Type}.
Variable session_get : value -> option value -> World -> reply * World.

(** The request for [u] is answered with a success status and a body that
    decodes to the list [data]; [next] is what the [Link] header gives
    for the next page ([None] without a link marked [next]). *)
Definition page (u : value) (params : option value) (w : World)
    (data : list value) (next : value) (w' : World) : Prop :=
  truthy u = true /\
  exists r,
    session_get u params w = (Response r, w') /\
    raises_for_status r = false /\
    json_body r = Some (VList data) /\
    next_url_of r = next.

(** [walk u params w pages u' params' w']: starting with the request for
    [u], the pages [pages] are served one after the other, each linked to
    the following one, and the last of them points to [u'].  The
    parameters go with the first request only. *)
Inductive walk : value -> option value -> World -> list (list value) ->
                 value -> option value -> World -> Prop :=
| walk_here u params w : walk u params w [] u params w
| walk_page u params w data next w1 pages u' params' w' :
    page u params w data next w1 ->
    walk next None w1 pages u' params' w' ->
    walk u params w (data :: pages) u' params' w'.

(** The request for [u] fails at the transport level: [session.get]
    raises, or the status makes [raise_for_status] raise. *)
Definition transport_failure (u : value) (params : option value) (w w' : World)
  : Prop :=
  session_get u params w = (ConnectionFailed, w') \/
  exists r, session_get u params w = (Response r, w') /\
            raises_for_status r = true.

(** The request for [u] is answered by [r] with a status that does not
    make [raise_for_status] raise. *)
Definition answered (u : value) (params : option value) (w : World)
    (r : response) (w' : World) : Prop :=
  session_get u params w = (Response r, w') /\ raises_for_status r = false.

End WithSession.

End Pages.

Import Pages.

(** ** A sample course

    The scenario of the specification, with some failures added: the
    file listing comes in two pages and has a folder; the first module
    has its items inlined, a file that is also in the listing among them;
    the items of the second module cannot be fetched; the third module
    points to a file whose detail request fails.  Three more listings
    break off on their second page: one has a body that does not decode,
    one is not there (status 404), one is a number.  Of course 43 only
    the file listing is served, and of course 44 nothing. *)

Module Sample.

(** The world is the trace of what was asked of it. *)
Inductive event : Type :=
| Requested (u : value) (params : option value)
| Streamed (u : value)
| MadeDirs (path : string)
| Opened (path : string)
| Wrote (path : string) (chunk : string)
| Closed (path : string).

Definition trace := list event.

Definition COURSE_ID : value := VStr "42".

Definition format (v : value) : string :=
  match v with
  | VStr s => s
  | VInt n => NilZero.string_of_int (Z.to_int n)
  | VNone => "None"
  | VBool true => "True"
  | VBool false => "False"
  | VList _ | VDict _ => "?"
  end.

Definition api : string := "https://canvas.sfu.ca/api/v1/courses/42".
Definition at_api (path : string) : string := api ++ path.

Definition file_json (i : Z) (name : string) : value :=
  VDict [("id", VInt i); ("display_name", VStr name);
         ("url", VStr ("https://files.example/" ++ format (VInt i)))].

Definition folder_json (i : Z) (name : string) : value :=
  VDict [("id", VInt i); ("display_name", VStr name)].

Definition item_json (type title u : string) : value :=
  VDict [("type", VStr type); ("title", VStr title); ("url", VStr u)].

Definition ok (body : value) (ls : option (list link)) : reply :=
  Response {| status_code := 200; json_body := Some body; links := ls |}.

Definition not_found : reply :=
  Response {| status_code := 404; json_body := None; links := None |}.

Definition lecture : value := file_json 1 "Lecture 1.pdf".
Definition slides : value := folder_json 9 "slides".
Definition setup : value := file_json 2 "setup.exe".
Definition notes : value := file_json 3 "Notes.DOCX".
Definition lecture_again : value := file_json 1 "Lecture 1 (week 1).pdf".

Definition week1 : value :=
  VDict [("id", VInt 10); ("name", VStr "Week 1");
         ("items", VList [item_json "File" "Notes" (at_api "/files/3");
                          item_json "File" "Lecture" (at_api "/files/1");
                          item_json "Page" "Welcome" (at_api "/pages/welcome")])].
Definition week2 : value :=
  VDict [("id", VInt 11); ("name", VStr "Week 2")].
Definition week3 : value :=
  VDict [("id", VInt 12); ("name", VStr "Week 3");
         ("items", VList [item_json "File" "Gone" (at_api "/files/4")])].

Definition routes : list (string * reply) :=
  [ (at_api "/files",
     ok (VList [lecture; slides])
        (Some [[("url", at_api "/files?page=1"); ("rel", "current")];
               [("url", at_api "/files?page=2"); ("rel", "next")];
               [("url", at_api "/files?page=2"); ("rel", "last")]]));
    (at_api "/files?page=2",
     ok (VList [setup])
        (Some [[("url", at_api "/files?page=2"); ("rel", "current")];
               [("url", at_api "/files?page=1"); ("rel", "first")]]));
    (at_api "/modules", ok (VList [week1; week2; week3]) None);
    (at_api "/modules/11/items", ConnectionFailed);
    (at_api "/files/3", ok notes None);
    (at_api "/files/1", ok (VList [lecture_again]) None);
    (at_api "/files/4", not_found);
    (at_api "/announcements",
     ok (VList [VDict [("id", VInt 70)]; VDict [("id", VInt 71)]])
        (Some [[("url", at_api "/announcements?page=2"); ("rel", "next")]]));
    (at_api "/announcements?page=2",
     Response {| status_code := 200; json_body := None; links := None |});
    (at_api "/discussion_topics",
     ok (VList [VDict [("id", VInt 80)]])
        (Some [[("url", at_api "/discussion_topics?page=2"); ("rel", "next")]]));
    (at_api "/quizzes",
     ok (VList [VDict [("id", VInt 90)]])
        (Some [[("url", at_api "/quizzes?page=2"); ("rel", "next")]]));
    (at_api "/quizzes?page=2",
     ok (VInt 5) (Some [[("url", at_api "/quizzes?page=3"); ("rel", "next")]]));
    (at_api "/quizzes?page=3", ok (VList [VDict [("id", VInt 91)]]) None);
    ("https://canvas.sfu.ca/api/v1/courses/43/files", ok (VList [setup]) None) ].

Definition session_get (u : value) (params : option value) (w : trace)
  : reply * trace :=
  (match u with
   | VStr s => match lookup s routes with Some r => r | None => not_found end
   | _ => ConnectionFailed
   end,
   w ++ [Requested u params]).

Definition downloads : list (string * stream) :=
  [ ("https://files.example/1",
     {| stream_status := 200; chunks := ["%PDF-"; "1.7"]; broken := None |});
    ("https://files.example/3",
     {| stream_status := 200; chunks := ["PK"]; broken := None |}) ].

Definition stream_get (u : value) (w : trace) : (exn + stream) * trace :=
  (match u with
   | VStr s => match lookup s downloads with
               | Some r => inr r
               | None => inl RequestException
               end
   | _ => inl RequestException
   end,
   w ++ [Streamed u]).

Definition os_path_join (a b : string) : string := (a ++ "/" ++ b)%string.
Definition os_path_dirname (p : string) : string :=
  take (Z.to_nat (rfind "/" p)) p.

Definition makedirs (path : string) (w : trace) : option exn * trace :=
  (None, w ++ [MadeDirs path]).
Definition open_wb (path : string) (w : trace) : (exn + string) * trace :=
  (inr path, w ++ [Opened path]).
Definition write (f : string) (chunk : string) (w : trace) : option exn * trace :=
  (None, w ++ [Wrote f chunk]).
Definition close (f : string) (w : trace) : option exn * trace :=
  (None, w ++ [Closed f]).

Definition expected_registry : registry :=
  [(KInt 1, {| filename := VStr "Lecture 1.pdf";
               url := VStr "https://files.example/1"; id := VInt 1 |});
   (KInt 2, {| filename := VStr "setup.exe";
               url := VStr "https://files.example/2"; id := VInt 2 |});
   (KInt 3, {| filename := VStr "Notes.DOCX";
               url := VStr "https://files.example/3"; id := VInt 3 |})].

Definition run_build (fuel : nat) : outcome (registry * trace) :=
  build_registry session_get COURSE_ID format fuel [].

Definition run_main (fuel : nat) : outcome ((counters * list message) * trace) :=
  main Posix os_path_join os_path_dirname session_get stream_get makedirs
    open_wb write close COURSE_ID format fuel [].

End Sample.


(** ** Notions for the statements about the registry *)

Module Discovery.

Local Open Scope py_scope.

(** The record a listing entry or a file detail stands for: it is a dict
    with a true [url], a [display_name] and a hashable [id].  Nothing
    else is stored by either path. *)
Definition candidate (file_info : value) : option (key * FileRecord) :=
  match file_info with
  | VDict d =>
      match lookup "url" d, lookup "display_name" d, lookup "id" d with
      | Some u, Some name, Some i =>
          match truthy u, hash_key i with
          | true, Ret k => Some (k, {| filename := name; url := u; id := i |})
          | _, _ => None
          end
      | _, _, _ => None
      end
  | _ => None
  end.

(** The records discovered in a sequence of entries, in its order. *)
Fixpoint discovered (entries : list value) : list (key * FileRecord) :=
  match entries with
  | [] => []
  | e :: rest =>
      match candidate e with
      | Some kr => kr :: discovered rest
      | None => discovered rest
      end
  end.

(** Path B applied to the file details in the order they are resolved. *)
Fixpoint path_b_entries (details : list value) (files_to_download : registry)
  : outcome registry :=
  match details with
  | [] => Ret files_to_download
  | file_info :: rest =>
      files_to_download <~ path_b_entry files_to_download file_info ;;
      path_b_entries rest files_to_download
  end.

(** The first and the last record with the key [k] in a sequence. *)
Fixpoint first_with (k : key) (l : list (key * FileRecord)) : option FileRecord :=
  match l with
  | [] => None
  | (k', r) :: l' => if key_eqb k k' then Some r else first_with k l'
  end.

Definition last_with (k : key) (l : list (key * FileRecord)) : option FileRecord :=
  first_with k (rev l).

Definition key_eq_dec (a b : key) : {a = b} + {a <> b}.
Proof.
  decide equality; [apply Z.eq_dec | apply string_dec].
Defined.

(** The number of distinct keys of a sequence. *)
Definition distinct_keys (l : list (key * FileRecord)) : nat :=
  List.length (nodup key_eq_dec (map fst l)).

(** What the two paths do with a discovered record. *)
Definition insert_a (reg : registry) (kr : key * FileRecord) : registry :=
  dict_set (fst kr) (snd kr) reg.

Definition insert_b (reg : registry) (kr : key * FileRecord) : registry :=
  if dict_mem (fst kr) reg then reg else dict_set (fst kr) (snd kr) reg.

(** The file details Path B resolves, in the order of the traversal: the
    traversal of lines 121-135 with the registry left out. *)
Section Resolved.

Context {World : Type}.
Variable session_get : value -> option value -> World -> reply * World.
Variable COURSE_ID : value.
Variable format : value -> string.

Definition item_detail (fuel : nat) (item : value) : M World (option value) :=
  ty <- lift (get item "type" VNone) ;;
  if eq_str ty "File" then
    file_detail_url <- lift (get item "url" VNone) ;;
    if truthy file_detail_url then
      file_details_list <- fetch session_get fuel file_detail_url None ;;
      ret (match file_details_list with
           | Some (file_info :: _) => Some file_info
           | Some [] | None => None
           end)
    else ret None
  else ret None.

Fixpoint items_details (fuel : nat) (module_items : list value)
  : M World (list value) :=
  match module_items with
  | [] => ret []
  | item :: rest =>
      d <- item_detail fuel item ;;
      ds <- items_details fuel rest ;;
      ret (match d with Some file_info => file_info :: ds | None => ds end)
  end.

Definition module_details (fuel : nat) (module : value) : M World (list value) :=
  _ <- lift (subscript module "name") ;;
  module_items <- lift (get module "items" (VList [])) ;;
  module_items <-
    (if negb (truthy module_items) then
       module_id <- lift (subscript module "id") ;;
       fetched <- fetch session_get fuel (items_url COURSE_ID format module_id)
                    (Some (per_page 100)) ;;
       ret (VList (match fetched with Some l => l | None => [] end))
     else ret module_items) ;;
  items <- lift (iterate module_items) ;;
  items_details fuel items.

Fixpoint modules_details (fuel : nat) (modules : list value)
  : M World (list value) :=
  match modules with
  | [] => ret []
  | module :: rest =>
      ds <- module_details fuel module ;;
      ds' <- modules_details fuel rest ;;
      ret (ds ++ ds')
  end.

Definition path_b_details (fuel : nat) : M World (list value) :=
  modules <- fetch session_get fuel (modules_url COURSE_ID format)
               (Some modules_params) ;;
  match modules with
  | Some l => modules_details fuel l
  | None => ret []
  end.

End Resolved.

End Discovery.

Import Discovery.


(** ** Notions for further statements *)

Module Observed.

(** A session that also keeps the list of the requests made, each with
    its parameters, in the order they are made. *)
Definition call : Type := value * option value.

Definition logged {World : Type}
    (session_get : value -> option value -> World -> reply * World)
    (u : value) (params : option value) (wl : World * list call)
  : reply * (World * list call) :=
  let (r, w') := session_get u params (fst wl) in
  (r, (w', snd wl ++ [(u, params)])).

(** A link that the loop of lines 52-55 stops at. *)
Definition marked_next (l : link) : bool :=
  match lookup "rel" l with
  | Some rel => String.eqb rel "next"
  | None => false
  end.

(** The entry has a true [url]. *)
Definition has_url (file_info : value) : bool :=
  match file_info with
  | VDict d =>
      match lookup "url" d with
      | Some u => truthy u
      | None => false
      end
  | _ => false
  end.

(** An entry is well formed when, having a true [url], it also has a
    [display_name] and a hashable [id]. *)
Definition well_formed (file_info : value) : Prop :=
  has_url file_info = true -> candidate file_info <> None.

(** The item is a file item with a true [url]: the items that line 133
    fetches a detail for. *)
Definition file_item (item : value) : bool :=
  match item with
  | VDict d =>
      eq_str (match lookup "type" d with Some t => t | None => VNone end) "File"
      && truthy (match lookup "url" d with Some u => u | None => VNone end)
  | _ => false
  end.

(** The entry of the registry passes the extension filter. *)
Definition wanted (pf : platform) (entry : key * FileRecord) : bool :=
  match filename (snd entry) with
  | VStr name => extension_allowed pf name
  | _ => false
  end.


(** The number of characters of a name that the sanitizer removes. *)
Fixpoint removed (s : string) : nat :=
  match s with
  | EmptyString => 0
  | String a s' =>
      (if Str.mem a Sanitizer.forbidden then 1 else 0) + removed s'
  end.

(** The world after the chunks were written to [f] one after the other. *)
Definition written {World Handle : Type}
    (write : Handle -> string -> World -> option exn * World)
    (f : Handle) (cs : list string) (w : World) : World :=
  fold_left (fun w chunk => snd (write f chunk w)) cs w.

(** A server whose only page points to itself. *)
Definition circular (u : value) (params : option value) (w : nat)
  : reply * nat :=
  (Response {| status_code := 200;
               json_body := Some (VList [VInt 1]);
               links := Some [[("url", "https://canvas.sfu.ca/loop");
                               ("rel", "next")]] |},
   S w).

(** The line announces a download under a name without forbidden
    characters and spaces (any other line passes). *)
Definition announces_safe_name (m : message) : bool :=
  match m with
  | Downloading name => Sanitizer.safe name
  | _ => true
  end.

(** The sum of the three counts of the summary. *)
Definition total (c : counters) : nat :=
  download_count c + skipped_count c + error_count c.

(** Runs of the sample course: after Path A, after both paths, after the
    script, and one download. *)
Definition listing_done : registry * Sample.trace :=
  Eval vm_compute in
    match path_a Sample.session_get Sample.COURSE_ID Sample.format 2 [] with
    | Ret x => x
    | _ => ([], [])
    end.

Definition build_done : registry * Sample.trace :=
  Eval vm_compute in
    match Sample.run_build 2 with
    | Ret x => x
    | _ => ([], [])
    end.

Definition main_done : (counters * list message) * Sample.trace :=
  Eval vm_compute in
    match Sample.run_main 2 with
    | Ret x => x
    | _ => (({| download_count := 0; skipped_count := 0; error_count := 0 |},
             []), [])
    end.


Definition download_done : (bool * list message) * Sample.trace :=
  Eval vm_compute in
    download_file Sample.os_path_join Sample.os_path_dirname Sample.stream_get
      Sample.makedirs Sample.open_wb Sample.write Sample.close
      (VStr "https://files.example/1") "Lecture_1.pdf" "out" [].

(** A module of the sample course with its items inlined and no file
    among them. *)
Definition week4 : value :=
  VDict [("id", VInt 13); ("name", VStr "Week 4");
         ("items",
          VList [Sample.item_json "Page" "Syllabus" (Sample.at_api "/pages/syllabus");
                 VDict [("type", VStr "File"); ("title", VStr "Draft")]])].

End Observed.

Import Observed.


(** ** Notions for the statements about a transfer *)

Module Transfers.

Section WithFileSystem.

Context {World Handle : Type}.
Variable os_path_dirname : string -> string.
Variable stream_get : value -> World -> (exn + stream) * World.
Variable makedirs : string -> World -> option exn * World.
Variable open_wb : string -> World -> (exn + Handle) * World.
Variable write : Handle -> string -> World -> option exn * World.
Variable close : Handle -> World -> option exn * World.

(** What the first write that raises, of the chunks written to [f] one
    after the other, raises; [None] when every write returns. *)
Fixpoint first_write_error (f : Handle) (cs : list string) (w : World)
  : option exn :=
  match cs with
  | [] => None
  | chunk :: rest =>
      match write f chunk w with
      | (Some e, _) => Some e
      | (None, w1) => first_write_error f rest w1
      end
  end.

Section OneTransfer.

Variable u : value.
Variable full_path : string.
(** The world in which the request is made. *)
Variable w0 : World.




End OneTransfer.

End WithFileSystem.

(** Two consoles: one that takes every line, and one that can only
    encode ASCII and raises on any other byte, as [print] does when the
    encoding of the standard output is ASCII. *)
Definition quiet {World : Type} (m : message) (w : World) : option exn * World :=
  (None, w).





End Transfers.

Import Transfers.


(** * Properties *)

(** ** The sanitizer *)

Module SanitizerProps.

Import Sanitizer.

Lemma safe_spec s :
  safe s = true <->
  (forall c, Str.In c s -> Str.mem c forbidden = false /\ c <> space).
Proof.
  induction s as [|a s IH]; simpl.
  - split; [intros _ c [] | reflexivity].
  - rewrite !andb_true_iff, !negb_true_iff, IH, Ascii.eqb_neq. split.
    + intros [[Hf Hs] Hrest] c [<-|Hc]; [tauto | now apply Hrest].
    + intros H. split; [split|].
      * apply (H a). now left.
      * apply (H a). now left.
      * intros c Hc. apply H. now right.
Qed.

Lemma sanitize_cons a s :
  sanitize_filename (String a s) =
    if Str.mem a forbidden then sanitize_filename s
    else if Ascii.eqb a space then String underscore (sanitize_filename s)
    else String a (sanitize_filename s).
Proof.
  unfold sanitize_filename. cbn [Str.re_sub_class].
  destruct (Str.mem a forbidden); [reflexivity|].
  cbn [Str.replace]. destruct (Ascii.eqb a space); reflexivity.
Qed.

Lemma sanitize_is_safe s : safe (sanitize_filename s) = true.
Proof.
  induction s as [|a s IH]; [reflexivity|].
  rewrite sanitize_cons.
  destruct (Str.mem a forbidden) eqn:Hf; [exact IH|].
  destruct (Ascii.eqb a space) eqn:Hs; cbn [safe].
  - now rewrite IH.
  - now rewrite Hf, Hs, IH.
Qed.

Lemma sanitize_safe_id s : safe s = true -> sanitize_filename s = s.
Proof.
  induction s as [|a s IH]; [reflexivity|].
  cbn [safe]. rewrite !andb_true_iff, !negb_true_iff.
  intros [[Hf Hs] Hrest]. rewrite sanitize_cons, Hf, Hs.
  f_equal. now apply IH.
Qed.

(** C7.  Whatever the input, no character of the sanitized name is one
    of the nine characters of the pattern (backslash, slash, star,
    question mark, colon, double quote, less-than, greater-than, bar) and
    none is a space.  The function is defined on every string, the empty
    one included; going through a name from the left, a forbidden
    character leaves nothing behind, a space leaves an underscore, and
    every other character stays as it is. *)
Theorem sanitize_filename_output :
  (forall filename c,
      Str.In c (sanitize_filename filename) ->
      ~ List.In c (map ascii_of_nat [92; 47; 42; 63; 58; 34; 60; 62; 124])
      /\ c <> " "%char)
  /\ sanitize_filename EmptyString = EmptyString
  /\ (forall a rest,
        sanitize_filename (String a rest) =
          if Str.mem a forbidden then sanitize_filename rest
          else if Ascii.eqb a " " then String "_" (sanitize_filename rest)
          else String a (sanitize_filename rest)).
Proof.
  split; [|split; [reflexivity | exact sanitize_cons]].
  intros filename c Hc.
  destruct (proj1 (safe_spec _) (sanitize_is_safe filename) c Hc) as [Hf Hs].
  split; [|exact Hs].
  intros Hin.
  assert (Str.mem c forbidden = true) as Hm; [|congruence].
  simpl in Hin.
  repeat (destruct Hin as [<-|Hin]; [reflexivity|]). destruct Hin.
Qed.

Lemma sanitize_filename_output_witness :
  ~ List.In "_"%char (map ascii_of_nat [92; 47; 42; 63; 58; 34; 60; 62; 124])
  /\ "_"%char <> " "%char.
Proof.
  apply (proj1 sanitize_filename_output "a b|c" "_"%char).
  simpl. auto.
Defined.

(** C8.  Sanitizing twice is sanitizing once, and a name that has no
    forbidden character and no space comes back unchanged. *)
Theorem sanitize_filename_idempotent :
  (forall x, sanitize_filename (sanitize_filename x) = sanitize_filename x)
  /\ (forall x, safe x = true -> sanitize_filename x = x).
Proof.
  split.
  - intros x. apply sanitize_safe_id, sanitize_is_safe.
  - exact sanitize_safe_id.
Qed.

Lemma sanitize_filename_idempotent_witness :
  sanitize_filename "Lecture_01.pdf" = "Lecture_01.pdf".
Proof.
  apply (proj2 sanitize_filename_idempotent "Lecture_01.pdf").
  reflexivity.
Defined.

End SanitizerProps.

(** ** The paginated fetcher *)

Module FetcherProps.

Section WithSession.

Context {World : Type}.
Variable session_get : value -> option value -> World -> reply * World.

Lemma request_loop_stop fuel u params acc (w : World) :
  truthy u = false -> request_loop session_get fuel u params acc w = Ret (Some acc, w).
Proof. intros H. destruct fuel; simpl; now rewrite H. Qed.

Lemma request_loop_page fuel u params acc w data next w1 :
  page session_get u params w data next w1 ->
  request_loop session_get (S fuel) u params acc w =
  request_loop session_get fuel next None (acc ++ data) w1.
Proof.
  intros (Hu & r & Hget & Hst & Hbody & Hnext).
  simpl. rewrite Hu, Hget, Hst, Hbody, Hnext. reflexivity.
Qed.

(** Walking over served pages: the loop is where the walk ends, with the
    records of the pages appended in their order. *)
Lemma request_loop_walk u params w pages u' params' w' :
  walk session_get u params w pages u' params' w' ->
  forall fuel acc,
    request_loop session_get (List.length pages + fuel) u params acc w =
    request_loop session_get fuel u' params' (acc ++ List.concat pages) w'.
Proof.
  induction 1 as [u params w | u params w data next w1 pages u' params' w' Hp _ IH];
    intros fuel acc.
  - simpl. now rewrite app_nil_r.
  - cbn [List.length List.concat Nat.add].
    rewrite (request_loop_page _ _ _ _ _ _ _ _ Hp), IH, app_assoc.
    reflexivity.
Qed.

Lemma length_concat {A} (ls : list (list A)) :
  List.length (List.concat ls) = list_sum (map (@List.length A) ls).
Proof.
  induction ls as [|l ls IH]; [reflexivity|].
  simpl. now rewrite length_app, IH.
Qed.

Lemma fuel_split (n fuel : nat) : n <= fuel -> exists k, fuel = n + k.
Proof. intros H. exists (fuel - n). lia. Qed.

(** C2.  When the pages are served one after the other, each linked to
    the next by the link marked [next], and the last one has no such
    link, the fetcher returns the records of all pages, in the order of
    the pages and, within a page, in the order of the page; the length of
    the result is the sum of the sizes of the pages. *)
Theorem make_api_request_concatenates_pages :
  forall u params w pages last params' w',
    walk session_get u params w pages last params' w' ->
    truthy last = false ->
    forall fuel, List.length pages <= fuel ->
      make_api_request session_get fuel u params w
        = Ret (Some (List.concat pages), w')
      /\ List.length (List.concat pages)
         = list_sum (map (@List.length value) pages).
Proof.
  intros u params w pages last params' w' Hw Hlast fuel Hfuel.
  split; [|apply length_concat].
  destruct (fuel_split _ _ Hfuel) as [k ->].
  unfold make_api_request.
  rewrite (request_loop_walk _ _ _ _ _ _ _ Hw).
  now apply request_loop_stop.
Qed.

(** C3.  When a request fails at the transport level, be it the first one
    or one that follows any number of served pages, the fetcher returns
    the failure marker [None]: the records of the pages before are not
    returned, and the result is not the empty list. *)
Theorem make_api_request_transport_failure :
  forall u params w pages u' params' w1 w2,
    walk session_get u params w pages u' params' w1 ->
    truthy u' = true ->
    transport_failure session_get u' params' w1 w2 ->
    forall fuel, List.length pages < fuel ->
      make_api_request session_get fuel u params w = Ret (None, w2)
      /\ make_api_request session_get fuel u params w <> Ret (Some [], w2).
Proof.
  intros u params w pages u' params' w1 w2 Hw Hu Hfail fuel Hfuel.
  assert (make_api_request session_get fuel u params w = Ret (None, w2)) as E.
  { destruct (fuel_split (S (List.length pages)) fuel Hfuel) as [k ->].
    unfold make_api_request.
    replace (S (List.length pages) + k) with (List.length pages + S k) by lia.
    rewrite (request_loop_walk _ _ _ _ _ _ _ Hw).
    simpl. rewrite Hu. simpl.
    destruct Hfail as [Hget | (r & Hget & Hst)]; rewrite Hget.
    - reflexivity.
    - now rewrite Hst. }
  split; [exact E | rewrite E; discriminate].
Qed.

(** The loop after a page whose status is fine, by what its body is. *)
Lemma request_loop_last_page fuel u params acc w r w1 :
  truthy u = true ->
  answered session_get u params w r w1 ->
  request_loop session_get (S fuel) u params acc w =
    match json_body r with
    | None => Ret (Some acc, w1)
    | Some (VList data) =>
        request_loop session_get fuel (next_url_of r) None (acc ++ data) w1
    | Some data =>
        Ret (Some (if isinstance_dict data then acc ++ [data] else acc), w1)
    end.
Proof.
  intros Hu [Hget Hst]. simpl. rewrite Hu, Hget, Hst. simpl.
  destruct (json_body r) as [[]|]; try reflexivity;
    now rewrite request_loop_stop.
Qed.

(** C4.  When the body of a page does not decode, the fetcher stops there
    and returns the records of the pages served before it; the result is
    not the failure marker. *)
Theorem make_api_request_undecodable_page :
  forall u params w pages u' params' w1 r w2,
    walk session_get u params w pages u' params' w1 ->
    truthy u' = true ->
    answered session_get u' params' w1 r w2 ->
    json_body r = None ->
    forall fuel, List.length pages < fuel ->
      make_api_request session_get fuel u params w
        = Ret (Some (List.concat pages), w2).
Proof.
  intros u params w pages u' params' w1 r w2 Hw Hu Hans Hbody fuel Hfuel.
  destruct (fuel_split (S (List.length pages)) fuel Hfuel) as [k ->].
  unfold make_api_request.
  replace (S (List.length pages) + k) with (List.length pages + S k) by lia.
  rewrite (request_loop_walk _ _ _ _ _ _ _ Hw).
  rewrite (request_loop_last_page _ _ _ _ _ _ _ Hu Hans), Hbody.
  reflexivity.
Qed.

(** C5, as amended.  When the body of a page decodes to something that is
    not a list, the fetcher stops there, whatever the [Link] header says,
    and returns the records of the pages served before, followed by the
    body itself when the body is a dict and by nothing when it is not a
    dict; the result is not the failure marker. *)
Theorem make_api_request_non_list_body :
  forall u params w pages u' params' w1 r data w2,
    walk session_get u params w pages u' params' w1 ->
    truthy u' = true ->
    answered session_get u' params' w1 r w2 ->
    json_body r = Some data ->
    isinstance_list data = false ->
    forall fuel, List.length pages < fuel ->
      make_api_request session_get fuel u params w
        = Ret (Some (List.concat pages
                     ++ (if isinstance_dict data then [data] else [])), w2).
Proof.
  intros u params w pages u' params' w1 r data w2 Hw Hu Hans Hbody Hnl fuel Hfuel.
  destruct (fuel_split (S (List.length pages)) fuel Hfuel) as [k ->].
  unfold make_api_request.
  replace (S (List.length pages) + k) with (List.length pages + S k) by lia.
  rewrite (request_loop_walk _ _ _ _ _ _ _ Hw).
  rewrite (request_loop_last_page _ _ _ _ _ _ _ Hu Hans), Hbody.
  destruct data; try discriminate Hnl; simpl; rewrite ?app_nil_r; reflexivity.
Qed.

End WithSession.

End FetcherProps.

Module FetcherExamples.

Import Sample FetcherProps.

(** Every page of a walk through the sample is settled by evaluation. *)
Ltac walk_sample :=
  repeat (eapply walk_page;
          [split; [reflexivity | eexists; repeat split; reflexivity] | ]);
  apply walk_here.

Lemma make_api_request_concatenates_pages_witness :
  make_api_request Sample.session_get 2 (VStr (at_api "/files"))
      (Some (per_page 100)) []
    = Ret (Some (List.concat [[lecture; slides]; [setup]]),
           [Requested (VStr (at_api "/files")) (Some (per_page 100));
            Requested (VStr (at_api "/files?page=2")) None])
  /\ List.length (List.concat [[lecture; slides]; [setup]])
     = list_sum (map (@List.length value) [[lecture; slides]; [setup]]).
Proof.
  apply (make_api_request_concatenates_pages Sample.session_get
           (VStr (at_api "/files")) (Some (per_page 100)) []
           [[lecture; slides]; [setup]] VNone None).
  - walk_sample.
  - reflexivity.
  - simpl. lia.
Defined.

Lemma make_api_request_transport_failure_witness :
  make_api_request Sample.session_get 2 (VStr (at_api "/discussion_topics"))
      None []
    = Ret (None,
           [Requested (VStr (at_api "/discussion_topics")) None;
            Requested (VStr (at_api "/discussion_topics?page=2")) None])
  /\ make_api_request Sample.session_get 2 (VStr (at_api "/discussion_topics"))
      None []
    <> Ret (Some [],
            [Requested (VStr (at_api "/discussion_topics")) None;
             Requested (VStr (at_api "/discussion_topics?page=2")) None]).
Proof.
  apply (make_api_request_transport_failure Sample.session_get
           (VStr (at_api "/discussion_topics")) None []
           [[VDict [("id", VInt 80)]]]
           (VStr (at_api "/discussion_topics?page=2")) None
           [Requested (VStr (at_api "/discussion_topics")) None]).
  - walk_sample.
  - reflexivity.
  - right. eexists. split; reflexivity.
  - simpl. lia.
Defined.

Lemma make_api_request_undecodable_page_witness :
  make_api_request Sample.session_get 2 (VStr (at_api "/announcements")) None []
    = Ret (Some (List.concat [[VDict [("id", VInt 70)]; VDict [("id", VInt 71)]]]),
           [Requested (VStr (at_api "/announcements")) None;
            Requested (VStr (at_api "/announcements?page=2")) None]).
Proof.
  apply (make_api_request_undecodable_page Sample.session_get
           (VStr (at_api "/announcements")) None []
           [[VDict [("id", VInt 70)]; VDict [("id", VInt 71)]]]
           (VStr (at_api "/announcements?page=2")) None
           [Requested (VStr (at_api "/announcements")) None]
           {| status_code := 200; json_body := None; links := None |}).
  - walk_sample.
  - reflexivity.
  - split; reflexivity.
  - reflexivity.
  - simpl. lia.
Defined.

Lemma make_api_request_non_list_body_witness :
  make_api_request Sample.session_get 5 (VStr (at_api "/files/3")) None []
    = Ret (Some (List.concat [] ++ (if isinstance_dict notes then [notes] else [])),
           [Requested (VStr (at_api "/files/3")) None]).
Proof.
  apply (make_api_request_non_list_body Sample.session_get
           (VStr (at_api "/files/3")) None [] []
           (VStr (at_api "/files/3")) None []
           {| status_code := 200; json_body := Some notes; links := None |}).
  - walk_sample.
  - reflexivity.
  - split; reflexivity.
  - reflexivity.
  - reflexivity.
  - simpl. lia.
Defined.

(** C5 as it is stated does not hold: a body that decodes to a number is
    not a list, and the fetcher does not append it.  Here the second page
    of a listing is the number 5; the result is the first page alone. *)
Lemma non_list_body_not_always_appended :
  ~ (forall (session_get : value -> option value -> trace -> reply * trace)
            u params w pages u' params' w1 r data w2,
        walk session_get u params w pages u' params' w1 ->
        truthy u' = true ->
        answered session_get u' params' w1 r w2 ->
        json_body r = Some data ->
        isinstance_list data = false ->
        forall fuel, List.length pages < fuel ->
          make_api_request session_get fuel u params w
            = Ret (Some (List.concat pages ++ [data]), w2)).
Proof.
  intros claim.
  specialize (claim Sample.session_get
    (VStr (at_api "/quizzes")) None []
    [[VDict [("id", VInt 90)]]]
    (VStr (at_api "/quizzes?page=2")) None
    [Requested (VStr (at_api "/quizzes")) None]
    {| status_code := 200; json_body := Some (VInt 5);
       links := Some [[("url", at_api "/quizzes?page=3"); ("rel", "next")]] |}
    (VInt 5)
    [Requested (VStr (at_api "/quizzes")) None;
     Requested (VStr (at_api "/quizzes?page=2")) None]).
  assert (make_api_request Sample.session_get 2 (VStr (at_api "/quizzes")) None []
          = Ret (Some [VDict [("id", VInt 90)]],
                 [Requested (VStr (at_api "/quizzes")) None;
                  Requested (VStr (at_api "/quizzes?page=2")) None])) as E
    by reflexivity.
  rewrite claim in E.
  - discriminate E.
  - walk_sample.
  - reflexivity.
  - split; reflexivity.
  - reflexivity.
  - reflexivity.
  - simpl. lia.
Qed.

End FetcherExamples.

(** ** The registry *)

Module RegistryProps.

Local Open Scope py_scope.

Lemma key_eqb_eq a b : key_eqb a b = true <-> a = b.
Proof.
  destruct a, b; simpl; try (split; [discriminate | congruence]).
  - tauto.
  - rewrite Z.eqb_eq. split; congruence.
  - rewrite String.eqb_eq. split; congruence.
Qed.

Lemma key_eqb_refl a : key_eqb a a = true.
Proof. now apply key_eqb_eq. Qed.

(** *** The dict operations *)

Lemma dict_mem_get k d : dict_mem k d = true <-> dict_get k d <> None.
Proof.
  induction d as [|[k' r] d IH]; simpl.
  - split; [discriminate | congruence].
  - destruct (key_eqb k k'); simpl; [split; [discriminate | reflexivity] | exact IH].
Qed.

Lemma dict_mem_keys k d : dict_mem k d = true <-> In k (map fst d).
Proof.
  induction d as [|[k' r] d IH]; simpl.
  - split; [discriminate | tauto].
  - rewrite orb_true_iff, IH, key_eqb_eq. intuition congruence.
Qed.

Lemma dict_get_set k k' r d :
  dict_get k (dict_set k' r d) = if key_eqb k k' then Some r else dict_get k d.
Proof.
  induction d as [|[k0 r0] d IH]; simpl.
  - reflexivity.
  - destruct (key_eqb k' k0) eqn:E0; simpl.
    + apply key_eqb_eq in E0. subst k0.
      destruct (key_eqb k k'); reflexivity.
    + destruct (key_eqb k k0) eqn:E1; [|exact IH].
      apply key_eqb_eq in E1. subst k0.
      destruct (key_eqb k k') eqn:E2; [|reflexivity].
      apply key_eqb_eq in E2. subst k'. rewrite key_eqb_refl in E0. discriminate.
Qed.

Lemma dict_set_keys k r d :
  map fst (dict_set k r d) =
    if dict_mem k d then map fst d else map fst d ++ [k].
Proof.
  induction d as [|[k0 r0] d IH]; simpl; [reflexivity|].
  destruct (key_eqb k k0); simpl; [reflexivity|].
  rewrite IH. destruct (dict_mem k d); reflexivity.
Qed.

Lemma dict_set_NoDup k r d :
  NoDup (map fst d) -> NoDup (map fst (dict_set k r d)).
Proof.
  intros H. rewrite dict_set_keys.
  destruct (dict_mem k d) eqn:E; [exact H|].
  apply NoDup_app; [exact H | constructor; [intros [] | constructor] |].
  intros x Hx [<-|[]].
  apply dict_mem_keys in Hx. congruence.
Qed.

Lemma dict_set_In k r d x :
  In x (map fst (dict_set k r d)) <-> x = k \/ In x (map fst d).
Proof.
  rewrite dict_set_keys. destruct (dict_mem k d) eqn:E.
  - apply dict_mem_keys in E. intuition congruence.
  - rewrite in_app_iff. simpl. intuition congruence.
Qed.

(** *** One entry *)

(** Case analysis on what the hypothesis [H] looks up and tests. *)
Ltac case_lookups H :=
  repeat (match type of H with
          | context [lookup ?k ?d] => destruct (lookup k d) eqn:?
          | context [truthy ?u] => destruct (truthy u) eqn:?
          | context [hash_key ?i] => destruct (hash_key i) eqn:?
          | context [dict_mem ?k ?d] => destruct (dict_mem k d) eqn:?
          end; cbn [obind negb] in H);
  try discriminate H.

Ltac finish_lookups :=
  repeat match goal with
         | E : dict_mem ?k ?d = _ |- context [dict_mem ?k ?d] => rewrite E
         | |- context [lookup ?k ?d] => destruct (lookup k d)
         end;
  congruence.

Lemma path_a_entry_candidate reg v reg' :
  path_a_entry reg v = Ret reg' ->
  reg' = match candidate v with
         | Some kr => insert_a reg kr
         | None => reg
         end.
Proof.
  destruct v; try discriminate.
  unfold path_a_entry, store, file_record, insert_a, candidate; simpl.
  intros H. case_lookups H; cbn; finish_lookups.
Qed.

Lemma path_b_entry_candidate reg v reg' :
  path_b_entry reg v = Ret reg' ->
  reg' = match candidate v with
         | Some kr => insert_b reg kr
         | None => reg
         end.
Proof.
  unfold path_b_entry.
  destruct v; simpl; try congruence.
  unfold store, file_record, insert_b, candidate; simpl.
  intros H. case_lookups H; cbn; finish_lookups.
Qed.

(** *** Sequences of entries *)

Lemma path_a_loop_fold l : forall reg reg',
  path_a_loop l reg = Ret reg' ->
  reg' = fold_left insert_a (discovered l) reg.
Proof.
  induction l as [|v l IH]; intros reg reg' H; simpl in H.
  - simpl. congruence.
  - destruct (path_a_entry reg v) as [reg1| |] eqn:E; try discriminate H.
    apply path_a_entry_candidate in E. simpl in H. apply IH in H.
    simpl. destruct (candidate v); subst; reflexivity.
Qed.

Lemma path_b_entries_fold l : forall reg reg',
  path_b_entries l reg = Ret reg' ->
  reg' = fold_left insert_b (discovered l) reg.
Proof.
  induction l as [|v l IH]; intros reg reg' H; simpl in H.
  - simpl. congruence.
  - destruct (path_b_entry reg v) as [reg1| |] eqn:E; try discriminate H.
    apply path_b_entry_candidate in E. simpl in H. apply IH in H.
    simpl. destruct (candidate v); subst; reflexivity.
Qed.

Lemma first_with_app k l1 l2 :
  first_with k (l1 ++ l2) =
    match first_with k l1 with Some r => Some r | None => first_with k l2 end.
Proof.
  induction l1 as [|[k' r] l1 IH]; simpl; [reflexivity|].
  destruct (key_eqb k k'); [reflexivity | exact IH].
Qed.

Lemma last_with_cons k kr l :
  last_with k (kr :: l) =
    match last_with k l with
    | Some r => Some r
    | None => if key_eqb k (fst kr) then Some (snd kr) else None
    end.
Proof.
  unfold last_with. simpl. rewrite first_with_app. destruct kr. reflexivity.
Qed.

Lemma dict_get_insert_b k kr reg :
  dict_get k (insert_b reg kr) =
    match dict_get k reg with
    | Some r => Some r
    | None => if key_eqb k (fst kr) then Some (snd kr) else None
    end.
Proof.
  destruct kr as [k' r]. unfold insert_b. simpl.
  destruct (dict_mem k' reg) eqn:E.
  - destruct (dict_get k reg) eqn:G; [reflexivity|].
    destruct (key_eqb k k') eqn:E'; [|reflexivity].
    apply key_eqb_eq in E'. subst k'. apply dict_mem_get in E. congruence.
  - rewrite dict_get_set. destruct (key_eqb k k') eqn:E'.
    + apply key_eqb_eq in E'. subst k'.
      destruct (dict_get k reg) eqn:G; [|reflexivity].
      assert (dict_mem k reg = true) by (apply dict_mem_get; congruence).
      congruence.
    + destruct (dict_get k reg); reflexivity.
Qed.

Lemma fold_insert_a_get k l : forall reg,
  dict_get k (fold_left insert_a l reg) =
    match last_with k l with Some r => Some r | None => dict_get k reg end.
Proof.
  induction l as [|kr l IH]; intros reg; [reflexivity|].
  simpl. rewrite IH, last_with_cons. unfold insert_a. rewrite dict_get_set.
  destruct (last_with k l); [reflexivity|].
  destruct (key_eqb k (fst kr)); reflexivity.
Qed.

Lemma fold_insert_b_get k l : forall reg,
  dict_get k (fold_left insert_b l reg) =
    match dict_get k reg with Some r => Some r | None => first_with k l end.
Proof.
  induction l as [|[k' r] l IH]; intros reg; simpl.
  - destruct (dict_get k reg); reflexivity.
  - rewrite IH, dict_get_insert_b. simpl.
    destruct (dict_get k reg); [reflexivity|].
    destruct (key_eqb k k'); reflexivity.
Qed.

Lemma insert_b_NoDup kr reg :
  NoDup (map fst reg) -> NoDup (map fst (insert_b reg kr)).
Proof.
  intros H. unfold insert_b. destruct (dict_mem (fst kr) reg); [exact H|].
  now apply dict_set_NoDup.
Qed.

Lemma insert_b_In kr reg x :
  In x (map fst (insert_b reg kr)) <-> x = fst kr \/ In x (map fst reg).
Proof.
  unfold insert_b. destruct (dict_mem (fst kr) reg) eqn:E.
  - apply dict_mem_keys in E. intuition congruence.
  - apply dict_set_In.
Qed.

(** Either way of inserting keeps one item per key and adds exactly the
    keys of the records inserted. *)
Lemma fold_insert_keys (ins : registry -> key * FileRecord -> registry) :
  (forall kr reg, NoDup (map fst reg) -> NoDup (map fst (ins reg kr))) ->
  (forall kr reg x, In x (map fst (ins reg kr)) <-> x = fst kr \/ In x (map fst reg)) ->
  forall l reg,
    NoDup (map fst reg) ->
    NoDup (map fst (fold_left ins l reg))
    /\ (forall x, In x (map fst (fold_left ins l reg)) <->
                  In x (map fst reg) \/ In x (map fst l)).
Proof.
  intros Hnd Hin. induction l as [|kr l IH]; intros reg H; simpl.
  - split; [exact H | tauto].
  - destruct (IH (ins reg kr) (Hnd _ _ H)) as [IH1 IH2].
    split; [exact IH1|].
    intros x. rewrite IH2, Hin. intuition congruence.
Qed.

Lemma NoDup_same_length (l1 l2 : list key) :
  NoDup l1 -> (forall x, In x l1 <-> In x l2) ->
  List.length l1 = List.length (nodup key_eq_dec l2).
Proof.
  intros H1 H.
  apply Nat.le_antisymm; apply NoDup_incl_length;
    try assumption; try apply NoDup_nodup.
  - intros x Hx. apply nodup_In, H, Hx.
  - intros x Hx. apply H. now apply nodup_In in Hx.
Qed.

(** What the two paths make of what they discover.  Whatever the file
    listing (Path A) and the file details resolved afterwards (Path B)
    are, the registry has one item per id and as many items as there are
    distinct ids among the records discovered.  A record of Path B whose
    id is already there is dropped: an id that Path A discovered keeps a
    Path A record, and an id that only Path B discovered keeps the first
    record Path B found for it.  Of the records of the listing with one
    id, the registry has the last. *)
Theorem registry_of_discoveries :
  forall course_files details after_a files_to_download,
    path_a_loop course_files [] = Ret after_a ->
    path_b_entries details after_a = Ret files_to_download ->
    NoDup (map fst files_to_download)
    /\ List.length files_to_download
       = distinct_keys (discovered course_files ++ discovered details)
    /\ (forall k,
          dict_get k files_to_download =
            match last_with k (discovered course_files) with
            | Some r => Some r
            | None => first_with k (discovered details)
            end).
Proof.
  intros course_files details after_a reg Ha Hb.
  apply path_a_loop_fold in Ha. apply path_b_entries_fold in Hb.
  set (a := discovered course_files) in *.
  set (b := discovered details) in *.
  destruct (fold_insert_keys insert_a
              (fun kr reg => dict_set_NoDup (fst kr) (snd kr) reg)
              (fun kr reg x => dict_set_In (fst kr) (snd kr) reg x)
              a [] (NoDup_nil _)) as [Hnd_a Hin_a].
  rewrite <- Ha in Hnd_a, Hin_a.
  destruct (fold_insert_keys insert_b insert_b_NoDup insert_b_In
              b after_a Hnd_a) as [Hnd Hin].
  rewrite <- Hb in Hnd, Hin.
  split; [exact Hnd | split].
  - rewrite <- (length_map fst). unfold distinct_keys.
    apply NoDup_same_length; [exact Hnd|].
    intros x. rewrite Hin, Hin_a, map_app, in_app_iff. simpl. tauto.
  - intros k. subst reg after_a.
    rewrite fold_insert_b_get, fold_insert_a_get. simpl.
    destruct (last_with k a); reflexivity.
Qed.

Lemma first_with_absent k l :
  ~ In k (map fst l) -> first_with k l = None.
Proof.
  induction l as [|[k' r] l IH]; simpl; [reflexivity|].
  intros H. destruct (key_eqb k k') eqn:E.
  - apply key_eqb_eq in E. subst. tauto.
  - apply IH. tauto.
Qed.

Lemma last_with_NoDup k l :
  NoDup (map fst l) -> last_with k l = first_with k l.
Proof.
  induction l as [|[k' r] l IH]; intros H; [reflexivity|].
  rewrite last_with_cons. inversion H as [|x xs Hnotin Hnd]; subst.
  rewrite (IH Hnd). cbn [first_with fst snd].
  destruct (key_eqb k k') eqn:E.
  - apply key_eqb_eq in E. subst k'. now rewrite first_with_absent.
  - destruct (first_with k l); reflexivity.
Qed.

(** When no id occurs twice in the file listing, the registry keeps for
    every id the first record discovered, Path A before Path B. *)
Theorem first_discovery_wins_without_repeats :
  forall course_files details after_a files_to_download,
    NoDup (map fst (discovered course_files)) ->
    path_a_loop course_files [] = Ret after_a ->
    path_b_entries details after_a = Ret files_to_download ->
    forall k,
      dict_get k files_to_download
      = first_with k (discovered course_files ++ discovered details).
Proof.
  intros course_files details after_a reg Hnd Ha Hb k.
  apply path_a_loop_fold in Ha. apply path_b_entries_fold in Hb. subst.
  rewrite fold_insert_b_get, fold_insert_a_get, first_with_app.
  rewrite (last_with_NoDup _ _ Hnd). simpl.
  destruct (first_with k (discovered course_files)); reflexivity.
Qed.

(** *** The traversal *)

Lemma bind_Ret {World A B} (c : M World A) (k : A -> M World B) w b w' :
  bind c k w = Ret (b, w') <->
  exists a w1, c w = Ret (a, w1) /\ k a w1 = Ret (b, w').
Proof.
  unfold bind. split.
  - destruct (c w) as [[a w1]| |]; try discriminate. eauto.
  - intros (a & w1 & -> & H). exact H.
Qed.

Lemma lift_Ret {World A} (c : outcome A) (w : World) a w' :
  lift c w = Ret (a, w') <-> c = Ret a /\ w' = w.
Proof.
  unfold lift. destruct c; simpl; split; try intros [? ?];
    try discriminate; try congruence.
  intros H. injection H as -> ->. auto.
Qed.

Section WithSession.

Context {World : Type}.
Variable session_get : value -> option value -> World -> reply * World.
Variable COURSE_ID : value.
Variable format : value -> string.

(** C6.  A failed fetch below the top level skips what it was for and
    nothing more: when the items of a module cannot be fetched (the
    fetcher returns its failure marker, or no item at all), the
    traversal goes on with the remaining modules and an unchanged
    registry; when the detail of a file item cannot be fetched, it goes
    on with the remaining items and an unchanged registry.  When the
    file listing cannot be fetched, Path A adds nothing and Path B runs
    from the empty registry; when the modules cannot be fetched, the
    registry is the one Path A built. *)
Theorem failed_fetch_skips_only_its_target :
  (forall fuel reg module name items module_id fetched w w1 rest,
      subscript module "name" = Ret name ->
      get module "items" (VList []) = Ret items ->
      truthy items = false ->
      subscript module "id" = Ret module_id ->
      fetch session_get fuel (items_url COURSE_ID format module_id)
        (Some (per_page 100)) w = Ret (fetched, w1) ->
      fetched = None \/ fetched = Some [] ->
      modules_loop session_get COURSE_ID format fuel (module :: rest) reg w
        = modules_loop session_get COURSE_ID format fuel rest reg w1)
  /\ (forall fuel reg item ty u file_details_list w w1 rest,
        get item "type" VNone = Ret ty ->
        eq_str ty "File" = true ->
        get item "url" VNone = Ret u ->
        truthy u = true ->
        fetch session_get fuel u None w = Ret (file_details_list, w1) ->
        file_details_list = None \/ file_details_list = Some [] ->
        module_items_loop session_get fuel (item :: rest) reg w
          = module_items_loop session_get fuel rest reg w1)
  /\ (forall fuel w w1,
        fetch session_get fuel (files_url COURSE_ID format)
          (Some (per_page 100)) w = Ret (None, w1) ->
        build_registry session_get COURSE_ID format fuel w
          = path_b session_get COURSE_ID format fuel [] w1)
  /\ (forall fuel w reg w1 w2,
        path_a session_get COURSE_ID format fuel w = Ret (reg, w1) ->
        fetch session_get fuel (modules_url COURSE_ID format)
          (Some modules_params) w1 = Ret (None, w2) ->
        build_registry session_get COURSE_ID format fuel w = Ret (reg, w2)).
Proof.
  repeat split.
  - intros fuel reg module name items module_id fetched w w1 rest
      Hn Hi Ht Hid Hf Hnone.
    cbn [modules_loop]. unfold module_entry, bind, lift.
    rewrite Hn, Hi. cbn [obind]. rewrite Ht. cbn [negb].
    rewrite Hid. cbn [obind]. rewrite Hf.
    destruct Hnone as [-> | ->]; reflexivity.
  - intros fuel reg item ty u file_details_list w w1 rest
      Hty Hfile Hu Htu Hf Hnone.
    cbn [module_items_loop]. unfold module_item, bind, lift.
    rewrite Hty. cbn [obind]. rewrite Hfile, Hu. cbn [obind].
    rewrite Htu, Hf. destruct Hnone as [-> | ->]; reflexivity.
  - intros fuel w w1 Hf. unfold build_registry, path_a, bind.
    rewrite Hf. reflexivity.
  - intros fuel w reg w1 w2 Ha Hf. unfold build_registry, path_b, bind.
    rewrite Ha, Hf. reflexivity.
Qed.

(** Case analysis along a run [H] that returned. *)
Ltac run_cases H :=
  repeat (match type of H with
          | context [obind ?x _] => destruct x eqn:?
          | context [match ?x with _ => _ end] => destruct x eqn:?
          | context [if ?x then _ else _] => destruct x eqn:?
          end; cbn [obind] in H |- *; try discriminate H).

Lemma module_item_detail fuel reg item w reg' w' :
  module_item session_get fuel reg item w = Ret (reg', w') ->
  exists d,
    item_detail session_get fuel item w = Ret (d, w')
    /\ match d with
       | Some file_info => path_b_entry reg file_info
       | None => Ret reg
       end = Ret reg'.
Proof.
  unfold module_item, item_detail, bind, lift, ret. intros H.
  run_cases H; injection H as <- <-; eexists; split; eauto.
Qed.

Lemma module_items_loop_details fuel items : forall reg w reg' w',
  module_items_loop session_get fuel items reg w = Ret (reg', w') ->
  exists ds,
    items_details session_get fuel items w = Ret (ds, w')
    /\ path_b_entries ds reg = Ret reg'.
Proof.
  induction items as [|item rest IH]; intros reg w reg' w' H.
  - injection H as <- <-. exists []. split; reflexivity.
  - cbn [module_items_loop] in H. apply bind_Ret in H.
    destruct H as (reg1 & w1 & Hitem & Hrest).
    apply module_item_detail in Hitem. destruct Hitem as (d & Hd & He).
    apply IH in Hrest. destruct Hrest as (ds & Hds & Hes).
    exists (match d with Some fi => fi :: ds | None => ds end). split.
    + cbn [items_details]. unfold bind, ret in *. rewrite Hd, Hds. reflexivity.
    + destruct d as [fi|]; simpl.
      * rewrite He. exact Hes.
      * injection He as <-. exact Hes.
Qed.

Lemma module_entry_details fuel reg module w reg' w' :
  module_entry session_get COURSE_ID format fuel reg module w = Ret (reg', w') ->
  exists ds,
    module_details session_get COURSE_ID format fuel module w = Ret (ds, w')
    /\ path_b_entries ds reg = Ret reg'.
Proof.
  unfold module_entry, module_details. intros H.
  apply bind_Ret in H. destruct H as (n & w1 & H1 & H).
  apply bind_Ret in H. destruct H as (mi & w2 & H2 & H).
  apply bind_Ret in H. destruct H as (mi' & w3 & H3 & H).
  apply bind_Ret in H. destruct H as (items & w4 & H4 & H).
  apply module_items_loop_details in H. destruct H as (ds & Hds & He).
  exists ds. split; [|exact He].
  apply bind_Ret. exists n, w1. split; [exact H1|].
  apply bind_Ret. exists mi, w2. split; [exact H2|].
  apply bind_Ret. exists mi', w3. split; [exact H3|].
  apply bind_Ret. exists items, w4. split; [exact H4 | exact Hds].
Qed.

Lemma path_b_entries_app ds1 : forall ds2 reg reg1 reg2,
  path_b_entries ds1 reg = Ret reg1 ->
  path_b_entries ds2 reg1 = Ret reg2 ->
  path_b_entries (ds1 ++ ds2) reg = Ret reg2.
Proof.
  induction ds1 as [|d ds1 IH]; intros ds2 reg reg1 reg2 H1 H2; simpl in *.
  - injection H1 as <-. exact H2.
  - destruct (path_b_entry reg d); try discriminate H1. simpl in *. eauto.
Qed.

Lemma modules_loop_details fuel modules : forall reg w reg' w',
  modules_loop session_get COURSE_ID format fuel modules reg w = Ret (reg', w') ->
  exists ds,
    modules_details session_get COURSE_ID format fuel modules w = Ret (ds, w')
    /\ path_b_entries ds reg = Ret reg'.
Proof.
  induction modules as [|module rest IH]; intros reg w reg' w' H.
  - injection H as <- <-. exists []. split; reflexivity.
  - cbn [modules_loop] in H. apply bind_Ret in H.
    destruct H as (reg1 & w1 & Hm & Hrest).
    apply module_entry_details in Hm. destruct Hm as (ds & Hds & He).
    apply IH in Hrest. destruct Hrest as (ds' & Hds' & He').
    exists (ds ++ ds'). split.
    + cbn [modules_details]. unfold bind, ret in *. rewrite Hds, Hds'. reflexivity.
    + eapply path_b_entries_app; eassumption.
Qed.

(** X19.  The registry of a run of the script, by what the run fetched:
    it is what the loop of Path A makes of the file listing, followed by
    what Path B makes, one after the other, of the file details that the
    traversal of the modules resolves; the run makes the requests of the
    listing and then those of that traversal. *)
Theorem build_registry_discoveries fuel w files_to_download w' :
  build_registry session_get COURSE_ID format fuel w = Ret (files_to_download, w') ->
  exists course_files w1 details after_a,
    fetch session_get fuel (files_url COURSE_ID format) (Some (per_page 100)) w
      = Ret (course_files, w1)
    /\ path_b_details session_get COURSE_ID format fuel w1 = Ret (details, w')
    /\ path_a_loop (match course_files with Some l => l | None => [] end) []
       = Ret after_a
    /\ path_b_entries details after_a = Ret files_to_download.
Proof.
  unfold build_registry, path_a, path_b, path_b_details. intros H.
  apply bind_Ret in H. destruct H as (after_a & w1 & Ha & Hb).
  apply bind_Ret in Ha. destruct Ha as (course_files & w0 & Hfetch & Ha).
  apply bind_Ret in Hb. destruct Hb as (modules & w2 & Hmod & Hb).
  assert (w1 = w0 /\
          path_a_loop (match course_files with Some l => l | None => [] end) []
          = Ret after_a) as [-> Hloop].
  { destruct course_files as [l|].
    - apply lift_Ret in Ha. tauto.
    - injection Ha as <- <-. auto. }
  assert (exists details,
            match modules with
            | Some l => modules_details session_get COURSE_ID format fuel l
            | None => ret []
            end w2 = Ret (details, w')
            /\ path_b_entries details after_a = Ret files_to_download)
    as (details & Hd & He).
  { destruct modules as [l|].
    - now apply modules_loop_details.
    - injection Hb as <- <-. exists []. split; reflexivity. }
  exists course_files, w0, details, after_a.
  repeat split; try assumption.
  apply bind_Ret. exists modules, w2. split; assumption.
Qed.

End WithSession.

End RegistryProps.

Module RegistryExamples.

Import Sample RegistryProps.

Lemma registry_of_discoveries_witness :
  NoDup (map fst expected_registry)
  /\ List.length expected_registry
     = distinct_keys (discovered [lecture; slides; setup]
                      ++ discovered [notes; lecture_again])
  /\ (forall k,
        dict_get k expected_registry =
          match last_with k (discovered [lecture; slides; setup]) with
          | Some r => Some r
          | None => first_with k (discovered [notes; lecture_again])
          end).
Proof.
  apply (registry_of_discoveries [lecture; slides; setup] [notes; lecture_again]
           [(KInt 1, {| filename := VStr "Lecture 1.pdf";
                        url := VStr "https://files.example/1"; id := VInt 1 |});
            (KInt 2, {| filename := VStr "setup.exe";
                        url := VStr "https://files.example/2"; id := VInt 2 |})]);
    reflexivity.
Defined.

(** C1.  The code on a file listing that has the same id twice: Path A
    writes the second record over the first, so the registry keeps the
    later discovery, where the same two records met by Path B leave the
    first in place. *)
Theorem path_a_overwrites_a_repeated_id :
  path_a_loop [lecture; lecture_again] []
  = Ret [(KInt 1, {| filename := VStr "Lecture 1 (week 1).pdf";
                     url := VStr "https://files.example/1"; id := VInt 1 |})]
  /\ path_b_entries [lecture; lecture_again] []
     = Ret [(KInt 1, {| filename := VStr "Lecture 1.pdf";
                        url := VStr "https://files.example/1"; id := VInt 1 |})].
Proof.
  split.
  - reflexivity.
  - reflexivity.
Qed.

(** Hence the rule that the first discovery is kept does not hold for
    every listing. *)
Lemma path_a_keeps_the_later_record :
  ~ (forall course_files details after_a files_to_download,
        path_a_loop course_files [] = Ret after_a ->
        path_b_entries details after_a = Ret files_to_download ->
        forall k,
          dict_get k files_to_download =
            first_with k (discovered course_files ++ discovered details)).
Proof.
  intros claim.
  specialize (claim [lecture; lecture_again] []
    [(KInt 1, {| filename := VStr "Lecture 1 (week 1).pdf";
                 url := VStr "https://files.example/1"; id := VInt 1 |})]
    [(KInt 1, {| filename := VStr "Lecture 1 (week 1).pdf";
                 url := VStr "https://files.example/1"; id := VInt 1 |})]
    eq_refl eq_refl (KInt 1)).
  discriminate claim.
Qed.

Lemma failed_fetch_skips_only_its_target_witness :
  (forall reg rest,
      modules_loop Sample.session_get COURSE_ID format 3 (week2 :: rest) reg []
      = modules_loop Sample.session_get COURSE_ID format 3 rest reg
          [Requested (VStr (at_api "/modules/11/items")) (Some (per_page 100))])
  /\ (forall reg rest,
        module_items_loop Sample.session_get 3
          (item_json "File" "Gone" (at_api "/files/4") :: rest) reg []
        = module_items_loop Sample.session_get 3 rest reg
            [Requested (VStr (at_api "/files/4")) None])
  /\ build_registry Sample.session_get (VStr "44") format 3 []
      = path_b Sample.session_get (VStr "44") format 3 []
          [Requested (VStr "https://canvas.sfu.ca/api/v1/courses/44/files")
             (Some (per_page 100))]
  /\ build_registry Sample.session_get (VStr "43") format 3 []
      = Ret ([(KInt 2, {| filename := VStr "setup.exe";
                          url := VStr "https://files.example/2";
                          id := VInt 2 |})],
             [Requested (VStr "https://canvas.sfu.ca/api/v1/courses/43/files")
                (Some (per_page 100));
              Requested (VStr "https://canvas.sfu.ca/api/v1/courses/43/modules")
                (Some modules_params)]).
Proof.
  destruct (failed_fetch_skips_only_its_target Sample.session_get COURSE_ID format)
    as (Hmodule & Hitem & _ & _).
  destruct (failed_fetch_skips_only_its_target Sample.session_get (VStr "44") format)
    as (_ & _ & Hfiles & _).
  destruct (failed_fetch_skips_only_its_target Sample.session_get (VStr "43") format)
    as (_ & _ & _ & Hmodules).
  split; [|split; [|split]].
  - intros reg rest.
    apply (Hmodule 3 reg week2 (VStr "Week 2") (VList []) (VInt 11) None);
      try reflexivity.
    now left.
  - intros reg rest.
    apply (Hitem 3 reg _ (VStr "File") (VStr (at_api "/files/4")) None);
      try reflexivity.
    now left.
  - apply (Hfiles 3). reflexivity.
  - apply (Hmodules 3 [] _
             [Requested (VStr "https://canvas.sfu.ca/api/v1/courses/43/files")
                (Some (per_page 100))]); reflexivity.
Defined.

End RegistryExamples.

(** ** The downloader *)

Module DownloaderProps.

Section WithFileSystem.

Context {World Handle : Type}.
Variable os_path_join : string -> string -> string.
Variable os_path_dirname : string -> string.
Variable stream_get : value -> World -> (exn + stream) * World.
Variable makedirs : string -> World -> option exn * World.
Variable open_wb : string -> World -> (exn + Handle) * World.
Variable write : Handle -> string -> World -> option exn * World.
Variable close : Handle -> World -> option exn * World.

(** Where the exception comes from: each step of the transfer that
    raises makes the transfer raise. *)
Lemma transfer_request_raises u full_path w e w1 :
  stream_get u w = (inl e, w1) ->
  transfer os_path_dirname stream_get makedirs open_wb write close u full_path w
    = (Some e, w1).
Proof. unfold transfer. now intros ->. Qed.

Lemma transfer_bad_status u full_path w r w1 :
  stream_get u w = (inr r, w1) ->
  stream_raises_for_status r = true ->
  transfer os_path_dirname stream_get makedirs open_wb write close u full_path w
    = (Some RequestException, w1).
Proof. unfold transfer. now intros -> ->. Qed.

Lemma transfer_makedirs_raises u full_path w r w1 e w2 :
  stream_get u w = (inr r, w1) ->
  stream_raises_for_status r = false ->
  makedirs (os_path_dirname full_path) w1 = (Some e, w2) ->
  transfer os_path_dirname stream_get makedirs open_wb write close u full_path w
    = (Some e, w2).
Proof. unfold transfer. now intros -> -> ->. Qed.

Lemma transfer_open_raises u full_path w r w1 w2 e w3 :
  stream_get u w = (inr r, w1) ->
  stream_raises_for_status r = false ->
  makedirs (os_path_dirname full_path) w1 = (None, w2) ->
  open_wb full_path w2 = (inl e, w3) ->
  transfer os_path_dirname stream_get makedirs open_wb write close u full_path w
    = (Some e, w3).
Proof. unfold transfer, save. now intros -> -> -> ->. Qed.

End WithFileSystem.

End DownloaderProps.

(** ** The extension filter *)

Module FilterProps.

(** Lowering a character never makes or unmakes a separator or a dot. *)
Lemma lower_char_sep pf a :
  Ascii.eqb (lower_char a) (sep pf) = Ascii.eqb a (sep pf).
Proof. destruct pf, a as [[] [] [] [] [] [] [] []]; reflexivity. Qed.

Lemma lower_char_slash a :
  Ascii.eqb (lower_char a) "/" = Ascii.eqb a "/".
Proof. destruct a as [[] [] [] [] [] [] [] []]; reflexivity. Qed.

Lemma lower_char_dot a :
  Ascii.eqb (lower_char a) extsep = Ascii.eqb a extsep.
Proof. destruct a as [[] [] [] [] [] [] [] []]; reflexivity. Qed.

Lemma lower_char_idem a : lower_char (lower_char a) = lower_char a.
Proof. destruct a as [[] [] [] [] [] [] [] []]; reflexivity. Qed.

Lemma lower_idem s : lower (lower s) = lower s.
Proof.
  induction s as [|a s IH]; [reflexivity|].
  simpl. now rewrite lower_char_idem, IH.
Qed.

Lemma rfind_from_lower c :
  (forall a, Ascii.eqb (lower_char a) c = Ascii.eqb a c) ->
  forall p i found, rfind_from c (lower p) i found = rfind_from c p i found.
Proof.
  intros Hc. induction p as [|a p IH]; intros i found; [reflexivity|].
  simpl. now rewrite Hc, IH.
Qed.

Lemma take_lower n : forall p, take n (lower p) = lower (take n p).
Proof.
  induction n as [|n IH]; intros [|a p]; try reflexivity.
  simpl. now rewrite IH.
Qed.

Lemma drop_lower n : forall p, drop n (lower p) = lower (drop n p).
Proof.
  induction n as [|n IH]; intros [|a p]; try reflexivity.
  simpl. now rewrite IH.
Qed.

Lemma is_dot_lower s :
  String.eqb (lower (take 1 s)) (String extsep EmptyString)
  = String.eqb (take 1 s) (String extsep EmptyString).
Proof.
  destruct s as [|a s]; [reflexivity|].
  cbn [take lower String.eqb]. now rewrite lower_char_dot.
Qed.

Lemma name_before_dot_lower n : forall i p,
  name_before_dot n i (lower p) = name_before_dot n i p.
Proof.
  induction n as [|n IH]; intros i p; [reflexivity|].
  cbn [name_before_dot].
  rewrite drop_lower, take_lower, is_dot_lower, IH. reflexivity.
Qed.

Lemma splitext_lower pf p :
  splitext pf (lower p)
  = (lower (fst (splitext pf p)), lower (snd (splitext pf p))).
Proof.
  unfold splitext, rfind.
  rewrite !(rfind_from_lower _ (fun a => lower_char_sep pf a)).
  rewrite !(rfind_from_lower _ lower_char_dot).
  assert (match altsep pf with
          | Some a => Z.max (rfind_from (sep pf) p 0 (-1))
                        (rfind_from a (lower p) 0 (-1))
          | None => rfind_from (sep pf) p 0 (-1)
          end
          = match altsep pf with
            | Some a => Z.max (rfind_from (sep pf) p 0 (-1)) (rfind_from a p 0 (-1))
            | None => rfind_from (sep pf) p 0 (-1)
            end) as ->.
  { destruct pf; simpl; [reflexivity|].
    now rewrite (rfind_from_lower _ lower_char_slash). }
  rewrite name_before_dot_lower, take_lower, drop_lower.
  destruct (_ && _); reflexivity.
Qed.

Lemma extension_allowed_lower pf p :
  extension_allowed pf (lower p) = extension_allowed pf p.
Proof.
  unfold extension_allowed. rewrite splitext_lower. simpl.
  now rewrite lower_idem.
Qed.

Lemma allowed_In file_ext :
  allowed file_ext = true <-> In file_ext ALLOWED_EXTENSIONS.
Proof.
  unfold allowed. rewrite existsb_exists. split.
  - intros (x & Hx & E). apply String.eqb_eq in E. now subst.
  - intros H. exists file_ext. split; [exact H | apply String.eqb_refl].
Qed.

(** C10.  An entry of the registry is downloaded exactly when the
    extension of its display name, as [os.path.splitext] gives it for the
    name as it came (not for the sanitized name), is in the allow-list
    once lowered.  Two names that differ only in the case of their
    letters are therefore treated alike, and [Report.PDF] is allowed.
    The sanitized name is only what the file is saved under: a name
    whose extension is allowed only after sanitizing is skipped. *)
Theorem extension_filter_ignores_case :
  (forall pf name,
      extension_allowed pf name = true <->
      In (lower (snd (splitext pf name))) ALLOWED_EXTENSIONS)
  /\ (forall pf p q,
        lower p = lower q -> extension_allowed pf p = extension_allowed pf q)
  /\ (forall pf, extension_allowed pf "Report.PDF" = true)
  /\ (forall pf,
        extension_allowed pf "notes.pdf?" = false
        /\ extension_allowed pf (Sanitizer.sanitize_filename "notes.pdf?") = true)
  /\ (forall (World Handle : Type) pf os_path_join os_path_dirname
             (stream_get : value -> World -> (exn + stream) * World)
             makedirs (open_wb : string -> World -> (exn + Handle) * World)
             write close COURSE_ID format
             file_id file_info name rest c log w,
        filename file_info = VStr name ->
        download_loop pf os_path_join os_path_dirname stream_get makedirs
          open_wb write close COURSE_ID format
          ((file_id, file_info) :: rest) c log w
        = if extension_allowed pf name then
            let '((ok, printed), w') :=
              download os_path_join os_path_dirname stream_get makedirs
                open_wb write close COURSE_ID format
                (url file_info) (Sanitizer.sanitize_filename name) w in
            download_loop pf os_path_join os_path_dirname stream_get makedirs
              open_wb write close COURSE_ID format
              rest (if ok then downloaded c else errored c) (log ++ printed) w'
          else
            download_loop pf os_path_join os_path_dirname stream_get makedirs
              open_wb write close COURSE_ID format rest (skipped c) log w).
Proof.
  split; [|split; [|split; [|split]]].
  - intros pf name. apply allowed_In.
  - intros pf p q E.
    rewrite <- (extension_allowed_lower pf p), <- (extension_allowed_lower pf q).
    now rewrite E.
  - intros []; reflexivity.
  - intros []; split; reflexivity.
  - intros World Handle pf os_path_join os_path_dirname stream_get makedirs
      open_wb write close COURSE_ID format file_id file_info name rest c log w E.
    cbn [download_loop]. rewrite E. unfold extension_allowed.
    destruct (allowed _); reflexivity.
Qed.

Lemma extension_filter_ignores_case_witness :
  (extension_allowed Posix "Notes.DOCX" = true)
  /\ (extension_allowed Windows "Report.PDF"
      = extension_allowed Windows "REPORT.pdf")
  /\ (download_loop Posix Sample.os_path_join Sample.os_path_dirname
        Sample.stream_get Sample.makedirs Sample.open_wb Sample.write
        Sample.close Sample.COURSE_ID Sample.format
        [(KInt 2, {| filename := VStr "setup.exe";
                     url := VStr "https://files.example/2"; id := VInt 2 |})]
        {| download_count := 1; skipped_count := 0; error_count := 0 |} [] []
      = Ret ({| download_count := 1; skipped_count := 1; error_count := 0 |},
             [], [])).
Proof.
  destruct extension_filter_ignores_case as (Hin & Hcase & _ & _ & Hloop).
  split; [|split].
  - apply (Hin Posix "Notes.DOCX"). simpl. tauto.
  - apply (Hcase Windows "Report.PDF" "REPORT.pdf"). reflexivity.
  - rewrite (Hloop _ _ Posix _ _ _ _ _ _ _ _ _ (KInt 2) _ "setup.exe");
      reflexivity.
Defined.

End FilterProps.

(** ** The sample course, from end to end *)

Module ScriptExamples.

Import Sample.

(** The registry of the sample course has the files 1, 2 and 3, with the
    record of the listing for file 1. *)
Example sample_registry :
  match run_build 2 with
  | Ret (files_to_download, _) => files_to_download = expected_registry
  | _ => False
  end.
Proof. vm_compute. reflexivity. Qed.

(** Files 1 and 3 are downloaded under their sanitized names, file 2 is
    skipped, nothing fails. *)
Example sample_summary :
  match run_main 2 with
  | Ret (summary, _) =>
      summary
      = ({| download_count := 2; skipped_count := 1; error_count := 0 |},
         [Downloading "Lecture_1.pdf";
          Downloaded "canvas_course_42_files/Lecture_1.pdf";
          Downloading "Notes.DOCX";
          Downloaded "canvas_course_42_files/Notes.DOCX"])
  | _ => False
  end.
Proof. vm_compute. reflexivity. Qed.

(** A download that the server refuses is reported as a network error
    and counts as failed. *)
Example sample_failed_download :
  fst (download_file os_path_join os_path_dirname stream_get makedirs open_wb
         write close (VStr "https://files.example/2") "setup.exe" "out" [])
  = (false,
     [Downloading "setup.exe";
      ErrorDownloading "setup.exe" (VStr "https://files.example/2")
        RequestException]).
Proof. reflexivity. Qed.

(** With too little fuel for the two pages of the listing the run does
    not end. *)
Example sample_out_of_fuel : run_build 1 = Timeout.
Proof. reflexivity. Qed.

End ScriptExamples.

(** * Further properties *)

(** ** The requests of the fetcher *)

Module FetcherMore.

Section WithSession.

Context {World : Type}.
Variable session_get : value -> option value -> World -> reply * World.

(** The shape of the requests of one call: none when the url is false,
    else the url with the parameters first and no parameters after. *)
Definition first_with_params (u : value) (params : option value)
    (calls : list call) : Prop :=
  if truthy u
  then exists rest,
         calls = (u, params) :: rest /\ Forall (fun c => snd c = None) rest
  else calls = [].

Lemma first_with_params_none u calls :
  first_with_params u None calls -> Forall (fun c => snd c = None) calls.
Proof.
  unfold first_with_params. destruct (truthy u).
  - intros (rest & -> & H). now constructor.
  - intros ->. constructor.
Qed.

(** The loop with and without the list of requests. *)
Lemma request_loop_logged fuel : forall u params acc w log,
  match request_loop session_get fuel u params acc w with
  | Ret (r, w') =>
      exists calls,
        request_loop (logged session_get) fuel u params acc (w, log)
          = Ret (r, (w', log ++ calls))
        /\ List.length calls <= fuel
        /\ first_with_params u params calls
  | Raise _ => False
  | Timeout =>
      request_loop (logged session_get) fuel u params acc (w, log) = Timeout
  end.
Proof.
  assert (forall u params n,
            truthy u = true ->
            1 <= S n /\ first_with_params u params [(u, params)]) as Hone.
  { intros u params n Hu. split; [lia|].
    unfold first_with_params. rewrite Hu. exists []. split; [reflexivity | constructor]. }
  induction fuel as [|fuel IH]; intros u params acc w log.
  - simpl. destruct (truthy u) eqn:Hu; simpl; [reflexivity|].
    exists []. rewrite app_nil_r. unfold first_with_params. rewrite Hu.
    repeat split; auto.
  - simpl. destruct (truthy u) eqn:Hu; simpl.
    2:{ exists []. rewrite app_nil_r. unfold first_with_params. rewrite Hu.
        repeat split; simpl; auto; lia. }
    destruct (session_get u params w) as [rep w1] eqn:Hget.
    assert (logged session_get u params (w, log)
            = (rep, (w1, log ++ [(u, params)]))) as Hl
      by (unfold logged; simpl; now rewrite Hget).
    rewrite !Hl. destruct rep as [|r].
    { exists [(u, params)]. split; [reflexivity | now apply Hone]. }
    destruct (raises_for_status r).
    { exists [(u, params)]. split; [reflexivity | now apply Hone]. }
    assert (forall u' acc',
      match request_loop session_get fuel u' None acc' w1 with
      | Ret (r0, w') =>
          exists calls,
            request_loop (logged session_get) fuel u' None acc'
              (w1, log ++ [(u, params)]) = Ret (r0, (w', log ++ calls))
            /\ List.length calls <= S fuel
            /\ first_with_params u params calls
      | Raise _ => False
      | Timeout =>
          request_loop (logged session_get) fuel u' None acc'
            (w1, log ++ [(u, params)]) = Timeout
      end) as Hrec.
    { intros u' acc'.
      specialize (IH u' None acc' w1 (log ++ [(u, params)])).
      destruct (request_loop session_get fuel u' None acc' w1)
        as [[r0 w']| |]; auto.
      destruct IH as (calls & E & Hlen & Hshape).
      exists ((u, params) :: calls). rewrite E, <- app_assoc. simpl.
      split; [reflexivity | split; [lia|]].
      unfold first_with_params. rewrite Hu. exists calls.
      split; [reflexivity | now apply first_with_params_none in Hshape]. }
    destruct (json_body r) as [[]|]; cbn [isinstance_dict]; apply Hrec.
Qed.

(** X1.  In a call that returns, no request is made when the url given
    is false; when it is true, it is requested first, with the
    parameters given, and every later request is made without
    parameters.  There are at most as many requests as the loop was
    allowed iterations.  Keeping the list of requests does not change
    the result. *)
Theorem make_api_request_sends_params_once :
  forall fuel u params w r w',
    make_api_request session_get fuel u params w = Ret (r, w') ->
    exists calls,
      make_api_request (logged session_get) fuel u params (w, [])
        = Ret (r, (w', calls))
      /\ List.length calls <= fuel
      /\ (truthy u = false -> calls = [])
      /\ (truthy u = true ->
          exists rest,
            calls = (u, params) :: rest
            /\ Forall (fun c => snd c = None) rest).
Proof.
  intros fuel u params w r w' H. unfold make_api_request in *.
  pose proof (request_loop_logged fuel u params [] w []) as L.
  rewrite H in L. destruct L as (calls & E & Hlen & Hshape).
  exists calls. split; [exact E | split; [exact Hlen|]].
  unfold first_with_params in Hshape.
  destruct (truthy u); split; intros Hu; try discriminate Hu; exact Hshape.
Qed.

(** X4.  The fetcher does not notice a cycle: when a page is served
    whatever the state of the world and its link marked [next] is its own
    url, no amount of fuel makes the call return. *)
Theorem make_api_request_follows_a_cycle_forever :
  forall u,
    (forall params w, exists data w', page session_get u params w data u w') ->
    forall fuel params w,
      make_api_request session_get fuel u params w = Timeout.
Proof.
  intros u Hpage fuel params w. unfold make_api_request.
  generalize (@nil value) as acc. revert params w.
  induction fuel as [|fuel IH]; intros params w acc.
  - destruct (Hpage params w) as (data & w' & Hu & _).
    simpl. now rewrite Hu.
  - destruct (Hpage params w) as (data & w' & Hp).
    rewrite (FetcherProps.request_loop_page _ _ _ _ _ _ _ _ _ Hp). apply IH.
Qed.

End WithSession.

(** X3.  Of the links of a [Link] header the first one marked [next] is
    the one followed, whatever stands before or after it; a header
    without a link marked [next] gives no next page. *)
Theorem next_link_is_the_first_marked_next :
  (forall ls, forallb (fun l => negb (marked_next l)) ls = true ->
              next_link ls = VNone)
  /\ (forall before l after,
        forallb (fun l => negb (marked_next l)) before = true ->
        marked_next l = true ->
        next_link (before ++ l :: after)
        = match lookup "url" l with Some u => VStr u | None => VNone end).
Proof.
  assert (forall l ls, marked_next l = false ->
                       next_link (l :: ls) = next_link ls) as Hskip.
  { intros l ls H. unfold marked_next in H. simpl.
    destruct (lookup "rel" l); [now rewrite H | reflexivity]. }
  split.
  - induction ls as [|l ls IH]; [reflexivity|].
    cbn [forallb]. rewrite andb_true_iff, negb_true_iff. intros [Hl Hls].
    rewrite Hskip by exact Hl. now apply IH.
  - induction before as [|b before IH]; intros l after Hb Hl.
    + unfold marked_next in Hl. simpl.
      destruct (lookup "rel" l); [now rewrite Hl | discriminate].
    + cbn [forallb] in Hb. rewrite andb_true_iff, negb_true_iff in Hb.
      destruct Hb as [Hb Hrest]. cbn [app].
      rewrite Hskip by exact Hb. now apply IH.
Qed.

End FetcherMore.

Module FetcherMoreExamples.

Import Sample FetcherMore.

Lemma make_api_request_sends_params_once_witness :
  exists calls,
    make_api_request (logged Sample.session_get) 2 (VStr (at_api "/files"))
        (Some (per_page 100)) ([], [])
      = Ret (Some [lecture; slides; setup],
             ([Requested (VStr (at_api "/files")) (Some (per_page 100));
               Requested (VStr (at_api "/files?page=2")) None], calls))
    /\ List.length calls <= 2
    /\ (truthy (VStr (at_api "/files")) = false -> calls = [])
    /\ (truthy (VStr (at_api "/files")) = true ->
        exists rest,
          calls = (VStr (at_api "/files"), Some (per_page 100)) :: rest
          /\ Forall (fun c => snd c = None) rest).
Proof.
  apply (make_api_request_sends_params_once Sample.session_get 2
           (VStr (at_api "/files")) (Some (per_page 100)) []).
  reflexivity.
Defined.

Lemma next_link_is_the_first_marked_next_witness :
  next_link ([[("url", "p1"); ("rel", "prev")]]
             ++ [("url", "p3"); ("rel", "next")]
             :: [[("url", "p9"); ("rel", "next")]])
  = VStr "p3"
  /\ next_link [[("url", "p1"); ("rel", "prev")]; [("url", "p9")]] = VNone.
Proof.
  split.
  - apply (proj2 next_link_is_the_first_marked_next
             [[("url", "p1"); ("rel", "prev")]]
             [("url", "p3"); ("rel", "next")]
             [[("url", "p9"); ("rel", "next")]]); reflexivity.
  - apply (proj1 next_link_is_the_first_marked_next). reflexivity.
Defined.

Lemma make_api_request_follows_a_cycle_forever_witness :
  make_api_request circular 1000 (VStr "https://canvas.sfu.ca/loop") None 0
  = Timeout.
Proof.
  apply (make_api_request_follows_a_cycle_forever circular
           (VStr "https://canvas.sfu.ca/loop")).
  intros params w. exists [VInt 1], (S w).
  split; [reflexivity|]. eexists. repeat split; reflexivity.
Defined.

End FetcherMoreExamples.

(** ** Entries that the two paths accept or choke on *)

Module RegistryMore.

Import RegistryProps.

Local Open Scope py_scope.

Ltac entry_cases d :=
  unfold path_a_entry, path_b_entry, store, file_record, well_formed, has_url,
    candidate;
  cbn [get subscript isinstance_dict obind];
  destruct (lookup "url" d) as [u|]; cbn [obind];
  [destruct (truthy u) eqn:Hu; cbn [obind]|];
  destruct (lookup "display_name" d) as [name|]; cbn [obind];
  destruct (lookup "id" d) as [i|]; cbn [obind];
  try (destruct (hash_key i) as [k| |] eqn:Hk; cbn [obind]).

Lemma path_a_entry_outcome reg v :
  match path_a_entry reg v with
  | Ret _ => isinstance_dict v = true /\ well_formed v
  | Raise _ => ~ (isinstance_dict v = true /\ well_formed v)
  | Timeout => False
  end.
Proof.
  destruct v as [| | | | |d]; try (intros [H _]; discriminate H).
  entry_cases d;
    try (split; [reflexivity | intros; congruence]);
    try (intros [_ H]; apply H; reflexivity).
  destruct i; discriminate Hk.
Qed.

Lemma path_b_entry_outcome reg v :
  match path_b_entry reg v with
  | Ret _ => well_formed v
  | Raise _ => ~ well_formed v
  | Timeout => False
  end.
Proof.
  destruct v as [| | | | |d]; try (intros H; discriminate H).
  entry_cases d;
    try destruct (dict_mem k reg); cbn [negb obind];
    try (intros; congruence);
    try (intros H; apply H; reflexivity).
  all: destruct i; discriminate Hk.
Qed.

(** X5.  Path A gets through a file listing exactly when every entry
    of it is a dict that either has no true [url] (a folder, skipped) or
    has a [display_name] and a hashable [id] as well.  Any other entry
    raises, and the loop, which has no handler, ends there. *)
Theorem path_a_loop_returns_iff :
  forall course_files files_to_download,
    (exists reg, path_a_loop course_files files_to_download = Ret reg)
    <-> Forall (fun v => isinstance_dict v = true /\ well_formed v) course_files.
Proof.
  induction course_files as [|v l IH]; intros reg.
  - simpl. split; [constructor | eauto].
  - cbn [path_a_loop]. pose proof (path_a_entry_outcome reg v) as Hv.
    destruct (path_a_entry reg v) as [reg1|e|]; cbn [obind].
    + rewrite IH. split.
      * intros H. now constructor.
      * intros H. now inversion H.
    + split; [intros [? H]; discriminate H|].
      intros H. inversion H. contradiction.
    + destruct Hv.
Qed.

(** X6.  Path B accepts a file detail exactly when it is well formed:
    anything that is not a dict or has no true [url] is passed over, and
    a dict with a true [url] needs its [id] and its [display_name],
    also when its id is already in the registry and nothing is stored. *)
Theorem path_b_entry_returns_iff :
  forall files_to_download file_info,
    (exists reg, path_b_entry files_to_download file_info = Ret reg)
    <-> well_formed file_info.
Proof.
  intros reg v. pose proof (path_b_entry_outcome reg v) as Hv.
  destruct (path_b_entry reg v) as [reg1|e|].
  - split; eauto.
  - split; [intros [? H]; discriminate H | contradiction].
  - destruct Hv.
Qed.

(** *** What the registry holds *)

Lemma candidate_sound v k r :
  candidate v = Some (k, r) ->
  truthy (url r) = true /\ hash_key (id r) = Ret k.
Proof.
  destruct v as [| | | | |d]; try discriminate. unfold candidate.
  destruct (lookup "url" d) as [u|]; try discriminate.
  destruct (lookup "display_name" d) as [name|]; try discriminate.
  destruct (lookup "id" d) as [i|]; try discriminate.
  destruct (truthy u) eqn:Hu; try discriminate.
  destruct (hash_key i) as [k'| |] eqn:Hk; try discriminate.
  intros H. injection H as <- <-. simpl. auto.
Qed.

Lemma discovered_In kr l :
  In kr (discovered l) -> exists v, In v l /\ candidate v = Some kr.
Proof.
  induction l as [|v l IH]; simpl; [tauto|].
  destruct (candidate v) as [kr'|] eqn:E.
  - intros [<-|H]; [eauto|]. destruct (IH H) as (v' & ? & ?). eauto.
  - intros H. destruct (IH H) as (v' & ? & ?). eauto.
Qed.

Lemma dict_set_In_entry k r d x :
  In x (dict_set k r d) -> x = (k, r) \/ In x d.
Proof.
  induction d as [|[k0 r0] d IH]; simpl.
  - intros [<-|[]]. auto.
  - destruct (key_eqb k k0) eqn:E; simpl.
    + apply key_eqb_eq in E. subst k0. intros [<-|H]; auto.
    + intros [<-|H]; auto. destruct (IH H); auto.
Qed.

Lemma insert_a_In_entry reg kr x :
  In x (insert_a reg kr) -> x = kr \/ In x reg.
Proof.
  unfold insert_a. intros H. apply dict_set_In_entry in H.
  destruct kr. exact H.
Qed.

Lemma insert_b_In_entry reg kr x :
  In x (insert_b reg kr) -> x = kr \/ In x reg.
Proof.
  unfold insert_b. destruct (dict_mem (fst kr) reg); [auto|].
  apply insert_a_In_entry.
Qed.

Lemma fold_insert_In_entry (ins : registry -> key * FileRecord -> registry) :
  (forall reg kr x, In x (ins reg kr) -> x = kr \/ In x reg) ->
  forall l reg x, In x (fold_left ins l reg) -> In x reg \/ In x l.
Proof.
  intros Hins. induction l as [|kr l IH]; intros reg x H; simpl in *; [auto|].
  destruct (IH _ _ H) as [H1|H1]; [|auto].
  destruct (Hins _ _ _ H1); auto.
Qed.

Lemma dict_set_append k r d :
  dict_mem k d = false -> dict_set k r d = d ++ [(k, r)].
Proof.
  induction d as [|[k0 r0] d IH]; simpl; [reflexivity|].
  destruct (key_eqb k k0); simpl; [discriminate|].
  intros H. now rewrite IH.
Qed.

Lemma fold_insert_b_append l : forall reg,
  exists added, fold_left insert_b l reg = reg ++ added.
Proof.
  induction l as [|kr l IH]; intros reg; simpl.
  - exists []. now rewrite app_nil_r.
  - destruct (IH (insert_b reg kr)) as [added ->]. unfold insert_b.
    destruct (dict_mem (fst kr) reg) eqn:E; [eauto|].
    rewrite dict_set_append by exact E. rewrite <- app_assoc. eauto.
Qed.

Lemma dict_get_app k r d e :
  dict_get k d = Some r -> dict_get k (d ++ e) = Some r.
Proof.
  induction d as [|[k0 r0] d IH]; simpl; [discriminate|].
  destruct (key_eqb k k0); auto.
Qed.

Section WithSession.

Context {World : Type}.
Variable session_get : value -> option value -> World -> reply * World.
Variable COURSE_ID : value.
Variable format : value -> string.

(** X7.  In the registry that the script builds no id occurs twice, and
    every record has a true [url] and stands under the key of its own
    [id]: the download pass never meets a record without a url. *)
Theorem build_registry_records :
  forall fuel w files_to_download w',
    build_registry session_get COURSE_ID format fuel w
      = Ret (files_to_download, w') ->
    NoDup (map fst files_to_download)
    /\ Forall (fun kr => truthy (url (snd kr)) = true
                         /\ hash_key (id (snd kr)) = Ret (fst kr))
         files_to_download.
Proof.
  intros fuel w reg w' H.
  apply build_registry_discoveries in H.
  destruct H as (course_files & w1 & details & after_a & _ & _ & Ha & Hb).
  apply path_a_loop_fold in Ha. apply path_b_entries_fold in Hb.
  split.
  - destruct (fold_insert_keys insert_a
                (fun kr reg => dict_set_NoDup (fst kr) (snd kr) reg)
                (fun kr reg x => dict_set_In (fst kr) (snd kr) reg x)
                (discovered match course_files with Some l => l | None => [] end)
                [] (NoDup_nil _)) as [Hnd _].
    rewrite <- Ha in Hnd.
    destruct (fold_insert_keys insert_b insert_b_NoDup insert_b_In
                (discovered details) after_a Hnd) as [Hnd' _].
    now rewrite <- Hb in Hnd'.
  - apply Forall_forall. intros [k r] Hin. subst reg.
    apply (fold_insert_In_entry insert_b insert_b_In_entry) in Hin.
    assert (exists v, candidate v = Some (k, r)) as [v Hv].
    { destruct Hin as [Hin|Hin].
      - subst after_a.
        apply (fold_insert_In_entry insert_a insert_a_In_entry) in Hin.
        destruct Hin as [[]|Hin].
        apply discovered_In in Hin. destruct Hin as (v & _ & ?). eauto.
      - apply discovered_In in Hin. destruct Hin as (v & _ & ?). eauto. }
    now apply candidate_sound in Hv.
Qed.

(** X8.  Path B only adds to the end of the registry: the items that
    were there keep their places and their records, so that the files of
    Path A come first in the download pass. *)
Theorem path_b_appends :
  forall fuel files_to_download w reg w',
    path_b session_get COURSE_ID format fuel files_to_download w
      = Ret (reg, w') ->
    (exists added, reg = files_to_download ++ added)
    /\ (forall k r, dict_get k files_to_download = Some r ->
                    dict_get k reg = Some r).
Proof.
  intros fuel reg0 w reg w' H.
  assert (exists added, reg = reg0 ++ added) as [added ->].
  { unfold path_b in H. apply bind_Ret in H.
    destruct H as ([l|] & w1 & _ & H).
    - apply modules_loop_details in H. destruct H as (ds & _ & H).
      apply path_b_entries_fold in H. subst reg.
      apply fold_insert_b_append.
    - injection H as <- _. exists []. now rewrite app_nil_r. }
  split; [eauto|]. intros k r. apply dict_get_app.
Qed.

(** X9.  A module whose items come inlined and have no file item with a
    true [url] among them costs no request and changes nothing. *)
Theorem module_without_files_is_passed :
  forall fuel files_to_download module name items w,
    subscript module "name" = Ret name ->
    get module "items" (VList []) = Ret (VList items) ->
    items <> [] ->
    Forall (fun item => isinstance_dict item = true /\ file_item item = false)
      items ->
    module_entry session_get COURSE_ID format fuel files_to_download module w
      = Ret (files_to_download, w).
Proof.
  intros fuel reg module name items w Hn Hi Hne Hall.
  unfold module_entry, bind, lift. rewrite Hn, Hi. cbn [obind].
  destruct items as [|item0 items0] eqn:E; [contradiction|].
  cbn [truthy negb ret iterate obind]. rewrite <- E in *. clear E Hne Hi.
  induction Hall as [|item rest [Hd Hf] _ IH]; [reflexivity|].
  cbn [module_items_loop]. unfold bind.
  assert (module_item session_get fuel reg item w = Ret (reg, w)) as ->.
  { destruct item as [| | | | |d]; try discriminate Hd.
    unfold module_item, bind, lift, file_item in *. cbn [get obind].
    destruct (eq_str _ "File"); [|reflexivity].
    cbn [andb] in Hf. cbn [obind]. now rewrite Hf. }
  exact IH.
Qed.

End WithSession.

End RegistryMore.

(** ** More on the sanitizer and the names files are saved under *)

Module SanitizerMore.

Import Sanitizer SanitizerProps.

Local Open Scope string_scope.

Lemma sanitize_app a : forall b,
  sanitize_filename (a ++ b) = sanitize_filename a ++ sanitize_filename b.
Proof.
  induction a as [|c a IH]; intros b; [reflexivity|].
  cbn [String.append]. rewrite !sanitize_cons, IH.
  destruct (Str.mem c forbidden); [reflexivity|].
  destruct (Ascii.eqb c space); reflexivity.
Qed.

(** X10.  Sanitizing goes character by character: the sanitized form of
    two names put together is the two sanitized forms put together; the
    result is never longer than the name, and shorter by exactly the
    number of forbidden characters in it. *)
Theorem sanitize_filename_concatenates :
  (forall a b,
      sanitize_filename (a ++ b) = sanitize_filename a ++ sanitize_filename b)
  /\ (forall s,
        String.length (sanitize_filename s) + removed s = String.length s).
Proof.
  split; [intros a b; apply sanitize_app|].
  induction s as [|c s IH]; [reflexivity|].
  rewrite sanitize_cons. cbn [removed String.length].
  destruct (Str.mem c forbidden); [lia|].
  destruct (Ascii.eqb c space); cbn [String.length]; lia.
Qed.

(** X11.  The sanitized name is empty exactly when every character of
    the name is one of the nine forbidden ones (the empty name
    included): the script then saves under an empty file name. *)
Theorem sanitize_filename_empty_iff :
  forall s,
    sanitize_filename s = EmptyString
    <-> (forall c, Str.In c s -> Str.mem c forbidden = true).
Proof.
  induction s as [|a s IH]; [simpl; tauto|].
  rewrite sanitize_cons. destruct (Str.mem a forbidden) eqn:Hf.
  - rewrite IH. simpl. split.
    + intros H c [<-|Hc]; auto.
    + intros H c Hc. apply H. now right.
  - split.
    + destruct (Ascii.eqb a space); discriminate.
    + intros H. specialize (H a (or_introl eq_refl)). congruence.
Qed.

Lemma take_drop n : forall p, take n p ++ drop n p = p.
Proof.
  induction n as [|n IH]; intros [|a p]; try reflexivity.
  simpl. now rewrite IH.
Qed.

Lemma splitext_joins pf p : fst (splitext pf p) ++ snd (splitext pf p) = p.
Proof.
  unfold splitext. destruct (_ && _); simpl.
  - apply take_drop.
  - clear. induction p as [|a p IH]; simpl; [reflexivity | now rewrite IH].
Qed.

Lemma safe_char_lower a :
  negb (Str.mem (lower_char a) forbidden) && negb (Ascii.eqb (lower_char a) space)
    = true ->
  negb (Str.mem a forbidden) && negb (Ascii.eqb a space) = true.
Proof. destruct a as [[] [] [] [] [] [] [] []]; vm_compute; auto. Qed.

Lemma safe_lower s : safe (lower s) = true -> safe s = true.
Proof.
  induction s as [|a s IH]; [reflexivity|].
  cbn [lower safe]. rewrite !andb_true_iff. intros [Ha Hs].
  split; [|now apply IH].
  apply andb_true_iff. apply safe_char_lower. now apply andb_true_iff.
Qed.

Lemma allowed_is_safe file_ext : allowed file_ext = true -> safe file_ext = true.
Proof.
  unfold allowed, ALLOWED_EXTENSIONS. cbn [existsb].
  rewrite !orb_true_iff, !String.eqb_eq.
  intuition (subst; try reflexivity; try discriminate).
Qed.

(** X12.  A file that passes the filter keeps its extension as it is
    written: the name it is saved under is the sanitized root followed by
    the extension of the original name, unchanged. *)
Theorem allowed_extension_survives_sanitizing :
  forall pf name,
    extension_allowed pf name = true ->
    sanitize_filename name
    = sanitize_filename (fst (splitext pf name)) ++ snd (splitext pf name).
Proof.
  intros pf name H. unfold extension_allowed in H.
  apply allowed_is_safe, safe_lower, sanitize_safe_id in H.
  rewrite <- (splitext_joins pf name) at 1.
  now rewrite sanitize_app, H.
Qed.

Lemma sanitize_filename_empty_iff_witness :
  sanitize_filename "??" = EmptyString.
Proof.
  apply (proj2 (sanitize_filename_empty_iff "??")).
  intros c [<-|[<-|[]]]; reflexivity.
Defined.

Lemma allowed_extension_survives_sanitizing_witness :
  sanitize_filename "Week 1: Intro.Pdf"
  = sanitize_filename (fst (splitext Posix "Week 1: Intro.Pdf"))
    ++ snd (splitext Posix "Week 1: Intro.Pdf").
Proof.
  apply (allowed_extension_survives_sanitizing Posix "Week 1: Intro.Pdf").
  reflexivity.
Defined.

End SanitizerMore.

(** ** The download pass *)

Module OrchestratorMore.

Import RegistryProps.

Section WithSystem.

Context {World Handle : Type}.
Variable pf : platform.
Variable os_path_join : string -> string -> string.
Variable os_path_dirname : string -> string.
Variable session_get : value -> option value -> World -> reply * World.
Variable stream_get : value -> World -> (exn + stream) * World.
Variable makedirs : string -> World -> option exn * World.
Variable open_wb : string -> World -> (exn + Handle) * World.
Variable write : Handle -> string -> World -> option exn * World.
Variable close : Handle -> World -> option exn * World.
Variable COURSE_ID : value.
Variable format : value -> string.

Lemma download_prints_two u name w :
  List.length
    (snd (fst (download os_path_join os_path_dirname stream_get makedirs
                 open_wb write close COURSE_ID format u name w))) = 2.
Proof.
  unfold download, download_file. destruct (transfer _ _ _ _ _ _ _ _ _) as [[e|] w'];
    reflexivity.
Qed.

Lemma download_loop_counts items : forall c log w c' log' w',
  download_loop pf os_path_join os_path_dirname stream_get makedirs open_wb
    write close COURSE_ID format items c log w = Ret ((c', log'), w') ->
  skipped_count c'
    = skipped_count c + List.length (filter (fun e => negb (wanted pf e)) items)
  /\ download_count c' + error_count c'
     = download_count c + error_count c + List.length (filter (wanted pf) items)
  /\ List.length log'
     = List.length log + 2 * List.length (filter (wanted pf) items).
Proof.
  induction items as [|[k r] items IH]; intros c log w c' log' w' H.
  - injection H as <- <- _. simpl. lia.
  - cbn [download_loop] in H.
    destruct (filename r) as [| | |name| |] eqn:En; try discriminate H.
    assert (wanted pf (k, r) = extension_allowed pf name) as Hw
      by (unfold wanted; cbn [snd]; now rewrite En).
    cbn [filter]. rewrite Hw.
    change (allowed (lower (snd (splitext pf name))))
      with (extension_allowed pf name) in H.
    destruct (extension_allowed pf name) eqn:Ea; cbn [negb].
    + pose proof (download_prints_two (url r)
                    (Sanitizer.sanitize_filename name) w) as Hp.
      destruct (download _ _ _ _ _ _ _ _ _ _ _ w) as [[ok printed] w1].
      simpl in Hp. apply IH in H. destruct H as (H1 & H2 & H3).
      rewrite length_app, Hp in H3. cbn [List.length].
      destruct ok; simpl in *; lia.
    + apply IH in H. destruct H as (H1 & H2 & H3).
      cbn [List.length]. simpl in *. lia.
Qed.

Lemma download_loop_safe_names items : forall c log w c' log' w',
  download_loop pf os_path_join os_path_dirname stream_get makedirs open_wb
    write close COURSE_ID format items c log w = Ret ((c', log'), w') ->
  forallb announces_safe_name log = true ->
  forallb announces_safe_name log' = true.
Proof.
  induction items as [|[k r] items IH]; intros c log w c' log' w' H Hlog.
  - injection H as _ <- _. exact Hlog.
  - cbn [download_loop] in H.
    destruct (filename r) as [| | |name| |]; try discriminate H.
    destruct (allowed _); [|eapply IH; eassumption].
    assert (forallb announces_safe_name
              (snd (fst (download os_path_join os_path_dirname stream_get
                           makedirs open_wb write close COURSE_ID format (url r)
                           (Sanitizer.sanitize_filename name) w))) = true) as Hp.
    { unfold download, download_file.
      destruct (transfer _ _ _ _ _ _ _ _ _) as [[e|] w1]; cbn;
        rewrite SanitizerProps.sanitize_is_safe; [destruct e|]; reflexivity. }
    destruct (download _ _ _ _ _ _ _ _ _ _ _ w) as [[ok printed] w1].
    eapply IH; [exact H|]. rewrite forallb_app, Hlog. exact Hp.
Qed.

(** X13.  Whatever the display names in the registry are, every download
    that the script announces is saved under a name that has none of the
    nine forbidden characters and no space. *)
Theorem main_saves_under_safe_names :
  forall fuel w c log w',
    main pf os_path_join os_path_dirname session_get stream_get makedirs
      open_wb write close COURSE_ID format fuel w = Ret ((c, log), w') ->
    forallb announces_safe_name log = true.
Proof.
  intros fuel w c log w' H. unfold main in H.
  apply bind_Ret in H. destruct H as ([] & w1 & _ & H).
  apply bind_Ret in H. destruct H as (reg & w2 & _ & H).
  cbv zeta in H. destruct reg as [|e0 reg].
  - injection H as _ <- _. reflexivity.
  - eapply download_loop_safe_names; [exact H | reflexivity].
Qed.


(** X15.  When the script gets to its summary, every entry of the
    registry it built was counted once: the skipped count is the number
    of entries whose extension is not allowed, the downloaded and the
    error count together are the number of the others, and two lines
    were printed for each download tried. *)
Theorem main_counts_every_entry :
  forall fuel w c log w',
    main pf os_path_join os_path_dirname session_get stream_get makedirs
      open_wb write close COURSE_ID format fuel w = Ret ((c, log), w') ->
    exists w1 files_to_download w2,
      makedirs (DOWNLOAD_DIR COURSE_ID format) w = (None, w1)
      /\ build_registry session_get COURSE_ID format fuel w1
         = Ret (files_to_download, w2)
      /\ skipped_count c
         = List.length (filter (fun e => negb (wanted pf e)) files_to_download)
      /\ download_count c + error_count c
         = List.length (filter (wanted pf) files_to_download)
      /\ total c = List.length files_to_download
      /\ List.length log = 2 * (download_count c + error_count c).
Proof.
  intros fuel w c log w' H. unfold main in H.
  apply bind_Ret in H. destruct H as ([] & w1 & Hmk & H).
  apply bind_Ret in H. destruct H as (reg & w2 & Hreg & H).
  destruct (makedirs (DOWNLOAD_DIR COURSE_ID format) w) as [[e|] w1'] eqn:Em;
    try discriminate Hmk.
  injection Hmk as <-.
  exists w1', reg, w2. split; [reflexivity | split; [exact Hreg|]].
  cbv zeta in H. destruct reg as [|e0 reg].
  - injection H as <- <- _. repeat split; reflexivity.
  - apply download_loop_counts in H. destruct H as (H1 & H2 & H3).
    unfold total. cbn [download_count skipped_count error_count] in *.
    cbn [List.length] in H3.
    pose proof (filter_length (wanted pf) (e0 :: reg)) as Hf.
    repeat split; lia.
Qed.

End WithSystem.

End OrchestratorMore.

(** ** What a download leaves behind *)

Module DownloaderMore.

Section WithFileSystem.

Context {World Handle : Type}.
Variable os_path_join : string -> string -> string.
Variable os_path_dirname : string -> string.
Variable stream_get : value -> World -> (exn + stream) * World.
Variable makedirs : string -> World -> option exn * World.
Variable open_wb : string -> World -> (exn + Handle) * World.
Variable write : Handle -> string -> World -> option exn * World.
Variable close : Handle -> World -> option exn * World.

(** The writes of lines 75-76 are those of a beginning of the stream, in
    its order; they are all there when nothing was raised. *)
Lemma write_chunks_written f cs end_of_stream : forall w,
  exists n,
    n <= List.length cs
    /\ snd (write_chunks write f cs end_of_stream w)
       = written write f (firstn n cs) w
    /\ (fst (write_chunks write f cs end_of_stream w) = None ->
        n = List.length cs /\ end_of_stream = None).
Proof.
  induction cs as [|chunk cs IH]; intros w.
  - exists 0. simpl. auto.
  - cbn [write_chunks]. destruct (write f chunk w) as [[e|] w1] eqn:Ew.
    + exists 1. cbn [firstn]. unfold written. simpl. rewrite Ew. simpl.
      split; [lia | split; [reflexivity | discriminate]].
    + destruct (IH w1) as (n & Hn & Hw & Hok).
      exists (S n). cbn [firstn]. unfold written in *. simpl. rewrite Ew. simpl.
      split; [lia | split; [exact Hw|]].
      intros H. destruct (Hok H) as [-> ->]. auto.
Qed.

(** X16.  Once the file is open it is closed again on every way out of
    the download, also when a write or the stream raises; until then a
    beginning of the stream was written to it, chunk after chunk in the
    order of the stream, and nothing of it is removed when the download
    fails. *)
Theorem save_closes_the_file :
  forall full_path r w f w1,
    open_wb full_path w = (inr f, w1) ->
    exists n,
      n <= List.length (chunks r)
      /\ snd (save open_wb write close full_path r w)
         = snd (close f (written write f (firstn n (chunks r)) w1))
      /\ (fst (save open_wb write close full_path r w) = None ->
          n = List.length (chunks r) /\ broken r = None).
Proof.
  intros full_path r w f w1 Hopen. unfold save. rewrite Hopen.
  destruct (write_chunks_written f (chunks r) (broken r) w1) as (n & Hn & Hw & Hok).
  exists n. split; [exact Hn|].
  destruct (write_chunks write f (chunks r) (broken r) w1) as [raised w2].
  simpl in Hw, Hok. subst w2.
  destruct (close f _) as [[e|] w3]; simpl; split; auto.
  intros H. discriminate H.
Qed.

Lemma write_chunks_raised f cs end_of_stream : forall w,
  fst (write_chunks write f cs end_of_stream w)
  = match first_write_error write f cs w with
    | Some e => Some e
    | None => end_of_stream
    end.
Proof.
  induction cs as [|chunk cs IH]; intros w; [reflexivity|].
  cbn [write_chunks first_write_error].
  destruct (write f chunk w) as [[e|] w1]; [reflexivity | apply IH].
Qed.

(** X17.  The downloader returns [True] only for a complete download:
    the request was answered with a status that is no error, the
    directory was made, the file was opened at the path joined from the
    directory and the name, every chunk of the stream was written to it
    in order and no write raised, the stream ended without an error and
    the file was closed without one. *)
Theorem download_file_true_is_complete :
  forall u filename download_path w printed w',
    download_file os_path_join os_path_dirname stream_get makedirs open_wb
      write close u filename download_path w = ((true, printed), w') ->
    exists r w1 w2 f w3,
      stream_get u w = (inr r, w1)
      /\ stream_raises_for_status r = false
      /\ makedirs (os_path_dirname (os_path_join download_path filename)) w1
         = (None, w2)
      /\ open_wb (os_path_join download_path filename) w2 = (inr f, w3)
      /\ first_write_error write f (chunks r) w3 = None
      /\ broken r = None
      /\ close f (written write f (chunks r) w3) = (None, w').
Proof.
  intros u filename download_path w printed w' H.
  unfold download_file in H.
  destruct (transfer _ _ _ _ _ _ u _ w) as [[e|] w0] eqn:Et; try discriminate H.
  injection H as _ <-. unfold transfer in Et.
  destruct (stream_get u w) as [[e|r] w1]; try discriminate Et.
  destruct (stream_raises_for_status r) eqn:Es; try discriminate Et.
  destruct (makedirs _ w1) as [[e|] w2] eqn:Em; try discriminate Et.
  destruct (open_wb (os_path_join download_path filename) w2)
    as [[e|f] w3] eqn:Eo.
  { unfold save in Et. rewrite Eo in Et. discriminate Et. }
  destruct (write_chunks_written f (chunks r) (broken r) w3) as (n & Hn & Hw & Hok).
  pose proof (write_chunks_raised f (chunks r) (broken r) w3) as Hr.
  unfold save in Et. rewrite Eo in Et.
  destruct (write_chunks write f (chunks r) (broken r) w3) as [raised w4].
  simpl in Hw, Hok, Hr.
  destruct (close f w4) as [[e|] w5] eqn:Ec; try discriminate Et.
  injection Et as -> <-. destruct (Hok eq_refl) as [-> Hb].
  rewrite firstn_all in Hw. subst w4.
  exists r, w1, w2, f, w3. repeat split; auto.
  destruct (first_write_error write f (chunks r) w3); [discriminate Hr | reflexivity].
Qed.

(** X18.  When the request raises or comes back with an error status,
    the downloader returns [False] without touching the file system: no
    directory is made and no file is opened, the world is as the request
    left it, and the error is reported as a network error when it is a
    [RequestException]. *)
Theorem download_file_refused_request :
  forall u filename download_path w w1,
    (stream_get u w = (inl RequestException, w1)
     \/ exists r, stream_get u w = (inr r, w1)
                  /\ stream_raises_for_status r = true) ->
    download_file os_path_join os_path_dirname stream_get makedirs open_wb
      write close u filename download_path w
    = ((false, [Downloading filename;
                ErrorDownloading filename u RequestException]), w1).
Proof.
  intros u filename download_path w w1 H. unfold download_file, transfer.
  destruct H as [-> | (r & -> & ->)]; reflexivity.
Qed.

End WithFileSystem.

End DownloaderMore.

(** ** The further properties on the sample course *)

Module MoreExamples.

Import Sample RegistryMore OrchestratorMore DownloaderMore.

Lemma path_a_loop_returns_iff_witness :
  exists reg, path_a_loop [lecture; slides; setup] [] = Ret reg.
Proof.
  apply (proj2 (path_a_loop_returns_iff [lecture; slides; setup] [])).
  repeat (constructor; [split; [reflexivity | vm_compute; congruence]|]).
  constructor.
Defined.

Lemma path_b_entry_returns_iff_witness :
  exists reg, path_b_entry expected_registry lecture_again = Ret reg.
Proof.
  apply (proj2 (path_b_entry_returns_iff expected_registry lecture_again)).
  vm_compute. congruence.
Defined.

Lemma build_registry_records_witness :
  NoDup (map fst expected_registry)
  /\ Forall (fun kr => truthy (url (snd kr)) = true
                       /\ hash_key (id (snd kr)) = Ret (fst kr))
       expected_registry.
Proof.
  apply (build_registry_records Sample.session_get COURSE_ID format 2 []
           expected_registry (snd build_done)).
  reflexivity.
Defined.

Lemma path_b_appends_witness :
  (exists added, expected_registry = fst listing_done ++ added)
  /\ (forall k r, dict_get k (fst listing_done) = Some r ->
                  dict_get k expected_registry = Some r).
Proof.
  apply (path_b_appends Sample.session_get COURSE_ID format 2
           (fst listing_done) (snd listing_done) expected_registry
           (snd build_done)).
  reflexivity.
Defined.

Lemma module_without_files_is_passed_witness :
  module_entry Sample.session_get COURSE_ID format 2 expected_registry week4 []
  = Ret (expected_registry, []).
Proof.
  apply (module_without_files_is_passed Sample.session_get COURSE_ID format 2
           expected_registry week4 (VStr "Week 4")
           [item_json "Page" "Syllabus" (at_api "/pages/syllabus");
            VDict [("type", VStr "File"); ("title", VStr "Draft")]]).
  - reflexivity.
  - reflexivity.
  - discriminate.
  - repeat (constructor; [split; reflexivity|]). constructor.
Defined.

Lemma main_counts_every_entry_witness :
  exists w1 files_to_download w2,
    Sample.makedirs (DOWNLOAD_DIR COURSE_ID format) [] = (None, w1)
    /\ build_registry Sample.session_get COURSE_ID format 2 w1
       = Ret (files_to_download, w2)
    /\ skipped_count (fst (fst main_done))
       = List.length (filter (fun e => negb (wanted Posix e)) files_to_download)
    /\ download_count (fst (fst main_done)) + error_count (fst (fst main_done))
       = List.length (filter (wanted Posix) files_to_download)
    /\ total (fst (fst main_done)) = List.length files_to_download
    /\ List.length (snd (fst main_done))
       = 2 * (download_count (fst (fst main_done))
              + error_count (fst (fst main_done))).
Proof.
  apply (main_counts_every_entry Posix Sample.os_path_join Sample.os_path_dirname
           Sample.session_get Sample.stream_get Sample.makedirs Sample.open_wb
           Sample.write Sample.close COURSE_ID format 2 []
           (fst (fst main_done)) (snd (fst main_done)) (snd main_done)).
  reflexivity.
Defined.

Lemma save_closes_the_file_witness :
  exists n,
    n <= List.length ["%PDF-"; "1.7"]
    /\ snd (save Sample.open_wb Sample.write Sample.close "out/Lecture_1.pdf"
              {| stream_status := 200; chunks := ["%PDF-"; "1.7"];
                 broken := Some RequestException |} [])
       = snd (Sample.close "out/Lecture_1.pdf"
                (written Sample.write "out/Lecture_1.pdf"
                   (firstn n ["%PDF-"; "1.7"]) [Opened "out/Lecture_1.pdf"]))
    /\ (fst (save Sample.open_wb Sample.write Sample.close "out/Lecture_1.pdf"
               {| stream_status := 200; chunks := ["%PDF-"; "1.7"];
                  broken := Some RequestException |} []) = None ->
        n = List.length ["%PDF-"; "1.7"] /\ Some RequestException = None).
Proof.
  apply (save_closes_the_file Sample.open_wb Sample.write Sample.close
           "out/Lecture_1.pdf"
           {| stream_status := 200; chunks := ["%PDF-"; "1.7"];
              broken := Some RequestException |} [] "out/Lecture_1.pdf").
  reflexivity.
Defined.

Lemma download_file_true_is_complete_witness :
  exists r w1 w2 f w3,
    Sample.stream_get (VStr "https://files.example/1") [] = (inr r, w1)
    /\ stream_raises_for_status r = false
    /\ Sample.makedirs
         (Sample.os_path_dirname (Sample.os_path_join "out" "Lecture_1.pdf")) w1
       = (None, w2)
    /\ Sample.open_wb (Sample.os_path_join "out" "Lecture_1.pdf") w2 = (inr f, w3)
    /\ first_write_error Sample.write f (chunks r) w3 = None
    /\ broken r = None
    /\ Sample.close f (written Sample.write f (chunks r) w3)
       = (None, snd download_done).
Proof.
  apply (download_file_true_is_complete Sample.os_path_join
           Sample.os_path_dirname Sample.stream_get Sample.makedirs
           Sample.open_wb Sample.write Sample.close
           (VStr "https://files.example/1") "Lecture_1.pdf" "out" []
           (snd (fst download_done))).
  reflexivity.
Defined.


Lemma main_saves_under_safe_names_witness :
  forallb announces_safe_name (snd (fst main_done)) = true.
Proof.
  apply (main_saves_under_safe_names Posix Sample.os_path_join
           Sample.os_path_dirname Sample.session_get Sample.stream_get
           Sample.makedirs Sample.open_wb Sample.write Sample.close
           COURSE_ID format 2 [] (fst (fst main_done)) (snd (fst main_done))
           (snd main_done)).
  reflexivity.
Defined.

Lemma build_registry_discoveries_witness :
  exists course_files w1 details after_a,
    fetch Sample.session_get 2 (files_url COURSE_ID format)
      (Some (per_page 100)) [] = Ret (course_files, w1)
    /\ path_b_details Sample.session_get COURSE_ID format 2 w1
       = Ret (details, snd build_done)
    /\ path_a_loop (match course_files with Some l => l | None => [] end) []
       = Ret after_a
    /\ path_b_entries details after_a = Ret expected_registry.
Proof.
  apply (RegistryProps.build_registry_discoveries Sample.session_get COURSE_ID
           format 2 [] expected_registry (snd build_done)).
  reflexivity.
Defined.

Lemma download_file_refused_request_witness :
  download_file Sample.os_path_join Sample.os_path_dirname Sample.stream_get
    Sample.makedirs Sample.open_wb Sample.write Sample.close
    (VStr "https://files.example/2") "setup.exe" "out" []
  = ((false, [Downloading "setup.exe";
              ErrorDownloading "setup.exe" (VStr "https://files.example/2")
                RequestException]),
     [Streamed (VStr "https://files.example/2")]).
Proof.
  apply (download_file_refused_request Sample.os_path_join
           Sample.os_path_dirname Sample.stream_get Sample.makedirs
           Sample.open_wb Sample.write Sample.close).
  left. reflexivity.
Defined.

End MoreExamples.

(** ** The downloader with its console *)

Module ConsoleProps.

Section WithConsole.

Context {World Handle : Type}.
Variable os_path_join : string -> string -> string.
Variable os_path_dirname : string -> string.
Variable stream_get : value -> World -> (exn + stream) * World.
Variable makedirs : string -> World -> option exn * World.
Variable open_wb : string -> World -> (exn + Handle) * World.
Variable write : Handle -> string -> World -> option exn * World.
Variable close : Handle -> World -> option exn * World.
Variable print : message -> World -> option exn * World.







(** With a console that takes every line and does nothing else, the
    function is [Downloader.download_file]. *)
Lemma quiet_console_download u filename download_path w :
  Console.download_file os_path_join os_path_dirname stream_get makedirs
    open_wb write close quiet u filename download_path w
  = Ret (fst (fst (Downloader.download_file os_path_join os_path_dirname
                     stream_get makedirs open_wb write close
                     u filename download_path w)),
         snd (Downloader.download_file os_path_join os_path_dirname
                stream_get makedirs open_wb write close
                u filename download_path w)).
Proof.
  unfold Console.download_file, Downloader.download_file, Console.handler, quiet.
  destruct (transfer _ _ _ _ _ _ u _ w) as [[e|] w1]; reflexivity.
Qed.


End WithConsole.

End ConsoleProps.

Module ConsoleExamples.

Import Sample ConsoleProps.



End ConsoleExamples.
